(** * DataChat: the Streamlit front end [streamlit_app.py]

  A shallow embedding of the functions of [streamlit_app.py]
  ([write_read], [calculate_cost], [OutputParser.parse], [main]) and
  the properties of its specification that were checked against them.

  The program is glue around external libraries.  What the libraries
  compute (the tokenizer, numpy's text conversion, the storage client,
  the query engine, the widgets) is an input of the model; what the
  program does with it is modelled step by step. *)

From Stdlib Require Import String Ascii List ZArith QArith Bool Lia.
From Stdlib Require Import DecimalString Permutation.
Import ListNotations.

Local Open Scope string_scope.
Local Open Scope list_scope.
Local Open Scope Z_scope.

(* ================================================================= *)
(** ** Python values *)

Module Py.

(** Exceptions the program can meet.  [ExternalError] stands for any
    exception raised inside an external library (storage client, query
    engine, pandas readers), with its class name and message. *)
Inductive exn : Type :=
| StopIteration
| IndexError
| KeyError (key : string)
| NotAContextManager
| ExternalError (cls msg : string).

Inductive result (A : Type) : Type :=
| Ok (a : A)
| Err (e : exn).
Arguments Ok {A} a.
Arguments Err {A} e.

Definition rbind {A B} (r : result A) (f : A -> result B) : result B :=
  match r with
  | Ok a => f a
  | Err e => Err e
  end.

(** A list comprehension whose element expression may raise: the first
    exception ends the comprehension. *)
Fixpoint comprehension {A B} (f : A -> result B) (xs : list A)
  : result (list B) :=
  match xs with
  | [] => Ok []
  | x :: xs' =>
      rbind (f x) (fun y =>
      rbind (comprehension f xs') (fun ys => Ok (y :: ys)))
  end.

(** [xs[i]] for a non-negative index. *)
Definition index {A} (xs : list A) (i : nat) : result A :=
  match nth_error xs i with
  | Some x => Ok x
  | None => Err IndexError
  end.

(** A [dict] with string keys: insertion ordered, one entry per key. *)
Definition dict (V : Type) : Type := list (string * V).

(** [d[k] = v]: an existing key keeps its position and takes the new
    value, a new key goes to the end. *)
Fixpoint setitem {V} (d : dict V) (k : string) (v : V) : dict V :=
  match d with
  | [] => [(k, v)]
  | (k', v') :: d' =>
      if String.eqb k k' then (k', v) :: d'
      else (k', v') :: setitem d' k v
  end.

Fixpoint get {V} (d : dict V) (k : string) : option V :=
  match d with
  | [] => None
  | (k', v) :: d' => if String.eqb k k' then Some v else get d' k
  end.

(** [d[k]] *)
Definition getitem {V} (d : dict V) (k : string) : result V :=
  match get d k with
  | Some v => Ok v
  | None => Err (KeyError k)
  end.

Definition keys {V} (d : dict V) : list string := map fst d.

(** [sep.join(xs)]: the accumulating loop of [str.join]. *)
Fixpoint join_from (sep acc : string) (xs : list string) : string :=
  match xs with
  | [] => acc
  | x :: xs' => join_from sep (acc ++ sep ++ x) xs'
  end.

Definition join (sep : string) (xs : list string) : string :=
  match xs with
  | [] => ""
  | x :: xs' => join_from sep x xs'
  end.

(** [sum(xs)]: a left fold from 0. *)
Definition sum (xs : list Z) : Z := fold_left Z.add xs 0.

End Py.

Import Py.

(* ================================================================= *)
(** ** pandas tables *)

Module Pd.

(** A cell of a table: a text, an integer, a float, or [CNaN], the
    marker of a missing value.  The program builds text cells and passes
    every cell on without looking into it. *)
Inductive cell : Type :=
| CStr (s : string)
| CInt (z : Z)
| CFloat (q : Q)
| CNaN.

(** A [DataFrame] with the default integer index: its column names in
    order and its rows in order, each row as [iterrows] yields it. *)
Record DataFrame : Type := mkDataFrame {
  columns : list string;
  rows : list (list cell)
}.

Definition shape (df : DataFrame) : nat * nat :=
  (length (rows df), length (columns df)).

Definition add_key (cols : list string) (k : string) : list string :=
  if existsb (String.eqb k) cols then cols else cols ++ [k].

(** The column names of a frame built from records: every key, in the
    order of its first appearance. *)
Definition union_keys (recs : list (dict cell)) : list string :=
  fold_left (fun cols r => fold_left add_key (keys r) cols) recs [].

Definition cell_of (r : dict cell) (c : string) : cell :=
  match get r c with
  | Some v => v
  | None => CNaN
  end.

(** [pd.DataFrame(recs)] for a list of dicts: one row per dict, one
    column per key met, a missing key filled with NaN.  An empty list
    gives the empty frame, with no column. *)
Definition DataFrame_of_records (recs : list (dict cell)) : DataFrame :=
  let cols := union_keys recs in
  {| columns := cols;
     rows := map (fun r => map (cell_of r) cols) recs |}.

(** *** Column types

    A frame keeps one type per column, and [iterrows] yields every row
    in the one type that all columns share: integers read as floats
    beside a float column, and every value is kept as it is stored once
    some column holds objects. *)
Inductive dtype : Type := int64 | float64 | object.

Definition dtype_of (c : cell) : dtype :=
  match c with
  | CInt _ => int64
  | CFloat _ | CNaN => float64
  | CStr _ => object
  end.

Definition common (a b : dtype) : dtype :=
  match a, b with
  | object, _ | _, object => object
  | float64, _ | _, float64 => float64
  | int64, int64 => int64
  end.

Fixpoint common_along (ds : list dtype) (row : list cell) : list dtype :=
  match ds, row with
  | d :: ds', c :: row' => common d (dtype_of c) :: common_along ds' row'
  | _, _ => []
  end.

(** The type of each column, for values given row by row. *)
Definition column_dtypes (values : list (list cell)) : list dtype :=
  match values with
  | [] => []
  | row :: more => fold_left common_along more (map dtype_of row)
  end.

(** The type of the two-dimensional array of the frame's values. *)
Definition frame_dtype (ds : list dtype) : dtype :=
  match ds with
  | [] => object
  | d :: ds' => fold_left common ds' d
  end.

Definition cast (d : dtype) (c : cell) : cell :=
  match d, c with
  | float64, CInt z => CFloat (inject_Z z)
  | _, _ => c
  end.

Fixpoint cast_along (fd : dtype) (ds : list dtype) (row : list cell)
  : list cell :=
  match ds, row with
  | d :: ds', c :: row' => cast fd (cast d c) :: cast_along fd ds' row'
  | _, _ => []
  end.

(** The rows that [iterrows] yields for a frame holding [values]: each
    value is stored in the type of its column and read in the type of
    the frame. *)
Definition iterrows (values : list (list cell)) : list (list cell) :=
  let ds := column_dtypes values in
  map (cast_along (frame_dtype ds) ds) values.

(** The frame with the column names [cols] that holds [values]. *)
Definition frame_of_values (cols : list string) (values : list (list cell))
  : DataFrame :=
  {| columns := cols; rows := iterrows values |}.

End Pd.

Import Pd.

(* ================================================================= *)
(** ** The cloud-blob loader: [write_read] *)

Module Loader.

(** What the storage client and [csv.reader] give for a blob: the rows
    of the file, each a list of fields, or the exception raised while
    the blob is opened and read. *)
Definition storage : Type :=
  option string -> string -> string -> result (list (list string)).

(** One step of the dict comprehension: [d[k] = v] for a field [v]
    of the file. *)
Definition store (d : dict cell) (kv : string * string) : dict cell :=
  setitem d (fst kv) (CStr (snd kv)).

(** [{header[i]: row[i] for i in range(len(header))}], one index at a
    time: the key is read first, then the value. *)
Fixpoint record_loop (header row : list string) (idx : list nat)
         (acc : dict cell) : result (dict cell) :=
  match idx with
  | [] => Ok acc
  | i :: idx' =>
      rbind (index header i) (fun k =>
      rbind (index row i) (fun v =>
      record_loop header row idx' (store acc (k, v))))
  end.

(** The header fields paired with the fields of a row, position by
    position. *)
Definition paired (header row : list string) : dict cell :=
  combine header (map CStr row).

Definition row_record (header row : list string) : result (dict cell) :=
  record_loop header row (seq 0 (length header)) [].

(** The body of [write_read] once the reader is open: [next(reader)]
    takes the header, the remaining rows are the data. *)
Definition frame_of_lines (lines : list (list string)) : result DataFrame :=
  match lines with
  | [] => Err StopIteration
  | header :: data =>
      rbind (comprehension (row_record header) data) (fun recs =>
      Ok (DataFrame_of_records recs))
  end.

Definition write_read (gcs : storage)
           (bucket_name blob_name : string) (projectid : option string)
  : result DataFrame :=
  rbind (gcs projectid bucket_name blob_name) frame_of_lines.

End Loader.

Import Loader.

(* ================================================================= *)
(** ** Streamlit: widgets, display calls and script control *)

Module St.

Inductive llm : Type :=
| OpenAI (api_token : option string)
| GoogleGemini (api_key : option string).

(** The objects the program hands to a display call or to the query
    engine.  [VCallback] is the usage handler of
    [get_openai_callback], with the token count and the dollar cost it
    holds when it is displayed. *)
#[warnings="-register-all"] Inductive value : Type :=
| VNone
| VBool (b : bool)
| VInt (z : Z)
| VFloat (q : Q)
| VStr (s : string)
| VFrame (df : DataFrame)
| VDict (d : list (string * value))
| VLLM (l : llm)
| VClass (name : string)
| VPandasConnector (frames : list (string * DataFrame))
                   (field_descriptions : string)
| VYahooFinanceConnector (stock_symbol : string)
| VCallback (total_tokens : Z) (total_cost : Q).

(** One entry per call into Streamlit or into the query engine, in
    program order.  [SmartDataframe] is the construction of an engine
    from its arguments; [chat] is a call of the method [chat] of the
    engine built from the arguments it names. *)
Inductive event : Type :=
| st_header (body divider : string)
| st_markdown (body : string)
| st_sidebar_header (body divider : string)
| st_sidebar_radio (label : string) (options : list string)
| st_radio (label : string) (options : list string)
| st_file_uploader (label : string) (types : list string)
| st_text_input (label : string)
| st_write (args : list value)
| st_dataframe (data : value)
| st_image (image : value)
| st_code (body : value)
| st_error (body : string)
| st_divider
| SmartDataframe (positional : list value) (keywords : dict value)
| get_openai_callback
| chat (positional : list value) (keywords : dict value) (query : string).

(** How a piece of the script ends: it runs on with a value, it is
    halted by [st.stop()], or an exception leaves it. *)
Inductive outcome (A : Type) : Type :=
| Done (a : A)
| Stopped
| Raised (e : exn).
Arguments Done {A} a.
Arguments Stopped {A}.
Arguments Raised {A} e.

(** A script fragment: the calls it made and how it ended. *)
Definition M (A : Type) : Type := (list event * outcome A)%type.

Definition ret {A} (a : A) : M A := ([], Done a).

Definition bind {A B} (m : M A) (f : A -> M B) : M B :=
  match m with
  | (t, Done a) => let (t', o) := f a in (t ++ t', o)
  | (t, Stopped) => (t, Stopped)
  | (t, Raised e) => (t, Raised e)
  end.

Definition emit (ev : event) : M unit := ([ev], Done tt).
Definition raise {A} (e : exn) : M A := ([], Raised e).
Definition st_stop {A} : M A := ([], Stopped).

Definition lift {A} (r : result A) : M A :=
  match r with
  | Ok a => ret a
  | Err e => raise e
  end.

(** [try: m  except Exception as e: h e].  The exception of
    [st.stop()] is not an [Exception] and passes through. *)
Definition try_except {A} (m : M A) (h : exn -> M A) : M A :=
  match m with
  | (t, Raised e) => let (t', o) := h e in (t ++ t', o)
  | _ => m
  end.

Definition trace {A} (m : M A) : list event := fst m.
Definition ending {A} (m : M A) : outcome A := snd m.

(** A widget call: the call is recorded and the widget's current
    value, set by the user, is returned. *)
Definition widget {A} (ev : event) (answer : A) : M A := ([ev], Done answer).

Definition is_error (ev : event) : bool :=
  match ev with st_error _ => true | _ => false end.

Definition is_chat (ev : event) : bool :=
  match ev with chat _ _ _ => true | _ => false end.

Definition is_engine (ev : event) : bool :=
  match ev with SmartDataframe _ _ => true | _ => false end.

(** The radio of the backend selection and the input of the prompt,
    told from the other widgets by their labels. *)
Definition is_backend_choice (ev : event) : bool :=
  match ev with
  | st_sidebar_radio label _ => String.eqb label "Choose a LLM:"
  | _ => false
  end.

Definition is_prompt_entry (ev : event) : bool :=
  match ev with
  | st_text_input label => String.eqb label "Enter your question/prompt."
  | _ => false
  end.

(** The calls through which a result is displayed. *)
Definition is_display (ev : event) : bool :=
  match ev with
  | st_dataframe _ | st_image _ | st_write _ => true
  | _ => false
  end.

End St.

Import St.

Declare Scope script_scope.
Delimit Scope script_scope with script.
Notation "x <- m ;; k" := (St.bind m (fun x => k))
(at level 61, m at next level, right associativity) : script_scope.
Notation "m ;; k" := (St.bind m (fun _ => k))
(at level 61, right associativity) : script_scope.
Local Open Scope script_scope.

(** [str(e)] as the f-string of the upload handler formats it. *)
Definition exn_str (e : exn) : string :=
match e with
| StopIteration => ""
| IndexError => "list index out of range"
| KeyError k => "'" ++ k ++ "'"
| NotAContextManager =>
    "'NoneType' object does not support the context manager protocol"
| ExternalError _ msg => msg
end.

(* ================================================================= *)
(** ** The response renderer: [OutputParser.parse] *)

Module OutputParser.

(** [v == s] for a string literal [s]. *)
Definition eq_str (v : value) (s : string) : bool :=
  match v with
  | VStr s' => String.eqb s' s
  | _ => false
  end.

Definition parse (result : dict value) : M unit :=
  ty <- lift (getitem result "type") ;;
  if eq_str ty "dataframe" then
    v <- lift (getitem result "value") ;;
    emit (st_dataframe v)
  else
    ty' <- lift (getitem result "type") ;;
    if eq_str ty' "plot" then
      v <- lift (getitem result "value") ;;
      emit (st_image v)
    else
      v <- lift (getitem result "value") ;;
      emit (st_write [v]).

(** The three variants of a query result and the view of each, as the
    specification lists them. *)
Inductive variant : Type := Table | Image | Scalar.

Definition variant_of (ty : value) : variant :=
  if eq_str ty "dataframe" then Table
  else if eq_str ty "plot" then Image
  else Scalar.

Definition view (k : variant) (v : value) : event :=
  match k with
  | Table => st_dataframe v
  | Image => st_image v
  | Scalar => st_write [v]
  end.

(** A well-formed result carries a tag and a payload. *)
Definition well_formed (result : dict value) (ty v : value) : Prop :=
  get result "type" = Some ty /\ get result "value" = Some v.

End OutputParser.

(* ================================================================= *)
(** ** The cost estimator: [calculate_cost] *)

Module Cost.

Section Estimator.

(** [tiktoken.encoding_for_model("gpt-3.5-turbo").encode] *)
Variable encode : string -> list Z.
(** numpy's [astype(str)] on one element of [row.values] *)
Variable astype_str : cell -> string.

Definition cost_per_token : Q := 5 # 10000.

(** [len(encoding.encode(' '.join(row.values.astype(str))))] *)
Definition row_tokens (row : list cell) : Z :=
  Z.of_nat (length (encode (join " " (map astype_str row)))).

Definition total_tokens (df : DataFrame) : Z :=
  sum (map row_tokens (rows df)).

(** [total_tokens * cost_per_token / 1000], in exact rational
    arithmetic: the rounding of Python's binary floating point is not
    modelled. *)
Definition cost_of (total : Z) : Q :=
  (inject_Z total * cost_per_token / inject_Z 1000)%Q.

Definition calculate_cost (df : DataFrame) : M unit :=
  let total := total_tokens df in
  emit (st_write [VStr "Tokens:"; VInt total]) ;;
  emit (st_write [VStr "Cost:"; VFloat (cost_of total)]).

(** The estimate in the words of the specification: the texts of the
    cells of a row with one space between neighbours, the number of
    tokens of that string, and the total over the rows. *)
Fixpoint spaced (texts : list string) : string :=
  match texts with
  | [] => ""
  | [t] => t
  | t :: rest => t ++ " " ++ spaced rest
  end.

Definition tokens_of_row (row : list cell) : Z :=
  Z.of_nat (length (encode (spaced (map astype_str row)))).

Fixpoint token_count (table : list (list cell)) : Z :=
  match table with
  | [] => 0
  | row :: rest => tokens_of_row row + token_count rest
  end.

End Estimator.

End Cost.

(* ================================================================= *)
(** ** The script: [main] *)

Module App.

(** The three environment variables read at start-up. *)
Record config : Type := mkConfig {
  OPENAI_API_KEY : option string;
  GOOGLE_API_KEY : option string;
  projectid : option string
}.

(** An uploaded file: its name, and what [pd.read_csv] and
    [pd.read_excel] make of its content. *)
Record upload : Type := mkUpload {
  name : string;
  read_csv : result DataFrame;
  read_excel : result DataFrame
}.

(** The state of the widgets during one run of the script. *)
Record session : Type := mkSession {
  task : string;
  dataset : option upload;
  col_desc : string;
  addon_text : string;
  llm_choice : string;
  prompt : string;
  bucket_name : string;
  blob_name : string;
  stock_symbol : string;
  yahoo_prompt : string
}.

(** What one call of [chat] gives: the results the engine hands to its
    response parser, the value it returns, the code it reports as last
    executed and the usage it meters. *)
Record reply : Type := mkReply {
  rendered : list (dict value);
  response : value;
  last_code_executed : value;
  tokens_used : Z;
  dollars : Q
}.

(** What happens inside the engine during one call of [chat]: it
    comes to results and an answer, or it meets an exception. *)
Inductive chat_outcome : Type :=
| chat_returns (r : reply)
| chat_fails (e : exn).

(** The external collaborators.  [caught e] is what [chat] hands back
    when it has caught [e]: a reply whose response is the text of the
    error. *)
Record world : Type := mkWorld {
  encode : string -> list Z;
  astype_str : cell -> string;
  gcs : storage;
  engine : list value -> dict value -> string -> chat_outcome;
  caught : exn -> reply
}.

Definition lower_ascii (a : ascii) : ascii :=
  let n := nat_of_ascii a in
  if ((65 <=? n) && (n <=? 90))%nat then ascii_of_nat (n + 32) else a.

(** [s.lower()] on the ASCII letters. *)
Fixpoint lower (s : string) : string :=
  match s with
  | EmptyString => EmptyString
  | String a s' => String (lower_ascii a) (lower s')
  end.

(** [s.split(c)] for a separator of one character. *)
Fixpoint split (c : ascii) (s : string) : list string :=
  match s with
  | EmptyString => [EmptyString]
  | String a s' =>
      if Ascii.eqb a c then EmptyString :: split c s'
      else match split c s' with
           | [] => [String a EmptyString]
           | x :: xs => String a x :: xs
           end
  end.

(** [dataset.name.split(".")[-1].lower()] *)
Definition file_extension (filename : string) : string :=
  lower (last (split "."%char filename) EmptyString).

(** [df.head()] *)
Definition head (df : DataFrame) : DataFrame :=
  {| columns := columns df; rows := firstn 5 (rows df) |}.

Definition setup : M unit :=
  emit (st_header "Chat with your small and large datasets!" "red") ;;
  emit (st_markdown "
        <style>
        #MainMenu {visibility: hidden;}
        </style>
        ").

Definition get_tasks (s : session) : M string :=
  emit (st_sidebar_header "Select a task" "rainbow") ;;
  widget (st_sidebar_radio "Choose one:"
            ["Load from local drive, <200MB";
             "Load from local drive, 200MB+";
             "Load from Google Storage";
             "Yahoo Finance"])
         (task s).

Definition get_llm (s : session) : M string :=
  emit (st_sidebar_header "Select an LLM" "rainbow") ;;
  widget (st_sidebar_radio "Choose a LLM:" ["OpenAI"; "Google Gemini"])
         (llm_choice s).

(** The entry [key] of the [config] keyword argument. *)
Definition configured (keywords : dict value) (key : string)
  : option value :=
  match get keywords "config" with
  | Some (VDict d) => get d key
  | _ => None
  end.

(** The configured parser applied to each result in turn. *)
Definition render_all (results : list (dict value)) : M unit :=
  fold_left (fun m res => m ;; OutputParser.parse res) results (ret tt).

(** What [chat] does once the engine has come to its results: the
    response parser it was configured with shows them, and the answer
    is returned. *)
Definition render_and_return (keywords : dict value) (r : reply) : M reply :=
  match configured keywords "response_parser" with
  | Some (VClass "OutputParser") => render_all (rendered r)
  | _ => ret tt
  end ;;
  ret r.

(** [sdf.chat(prompt)] on the engine built from [positional] and
    [keywords].  [chat] lets no exception out: one met inside the
    engine, or raised by the parser, is caught there and the text of
    the error is returned in place of the answer. *)
Definition sdf_chat (w : world) (positional : list value)
           (keywords : dict value) (query : string) : M reply :=
  emit (chat positional keywords query) ;;
  match engine w positional keywords query with
  | chat_fails e => ret (caught w e)
  | chat_returns r =>
      try_except (render_and_return keywords r)
                 (fun e => ret (caught w e))
  end.

(** The usage handler that [get_openai_callback()] yields: one mutable
    object, to which the engine adds what a call consumed. *)
Record handler : Type := mkHandler {
  total_tokens : Z;
  total_cost : Q
}.

Definition fresh_handler : handler :=
  {| total_tokens := 0; total_cost := 0 |}.

Definition metered (cb : handler) (r : reply) : handler :=
  {| total_tokens := total_tokens cb + tokens_used r;
     total_cost := (total_cost cb + dollars r)%Q |}.

Definition show (cb : handler) : value :=
  VCallback (total_tokens cb) (total_cost cb).

(** [with cm as cb: body].  [None] has no [__enter__]: entering it
    raises before the body runs. *)
Definition with_stmt {A} (cm : option handler) (body : handler -> M A)
  : M A :=
  match cm with
  | Some cb => body cb
  | None => raise NotAContextManager
  end.

(** Line 92. *)
Definition choose_llm (c : config) (llm_choice : string) : llm :=
  if String.eqb llm_choice "OpenAI"
  then OpenAI (OPENAI_API_KEY c)
  else GoogleGemini (GOOGLE_API_KEY c).

(** Lines 93 to 95: the arguments of [SmartDataframe(...)], two given
    by position and one, [config], by keyword. *)
Definition engine_positional (df : DataFrame) (addon : string)
  : list value :=
  [VPandasConnector [("original_df", df)] addon;
   VDict [("enable_cache", VBool false)]].

Definition engine_config (l : llm) : value :=
  VDict [("llm", VLLM l);
         ("conversational", VBool false);
         ("response_parser", VClass "OutputParser")].

Definition engine_keywords (l : llm) : dict value :=
  [("config", engine_config l)].

(** Lines 91 to 109: the query dispatcher of the upload flow.

    Line 100 reads
    [with get_openai_callback() as cb if llm_choice == "OpenAI" else None:].
    Python refuses the line as it stands, since the target of [as] is
    a conditional expression.  The model takes the grouping that
    parses, [with (get_openai_callback() if ... else None) as cb:]:
    the condition chooses the context manager.  Inside the body [cb]
    is the handler object, which is true, so lines 107 to 109 run. *)
Definition dispatch (c : config) (w : world) (s : session)
           (df : DataFrame) (addon : string) : M unit :=
  llm_choice <- get_llm s ;;
  let llm := choose_llm c llm_choice in
  let positional := engine_positional df addon in
  let keywords := engine_keywords llm in
  emit (SmartDataframe positional keywords) ;;
  prompt <- widget (st_text_input "Enter your question/prompt.") (prompt s) ;;
  if String.eqb prompt "" then st_stop else
  emit (st_write [VStr "Response"]) ;;
  cm <- (if String.eqb llm_choice "OpenAI"
         then emit get_openai_callback ;; ret (Some fresh_handler)
         else ret None) ;;
  with_stmt cm (fun cb =>
    r <- sdf_chat w positional keywords prompt ;;
    emit (st_write [response r]) ;;
    emit st_divider ;;
    emit (st_write [VStr "🧞‍♂️ Under the hood, the code that was executed:"]) ;;
    emit (st_code (last_code_executed r)) ;;
    emit st_divider ;;
    emit (st_write [VStr "💰 Tokens used and your cost:"]) ;;
    emit (st_write [show (metered cb r)])).

(** Lines 77 and 78: the reader is chosen by the file extension. *)
Definition read_upload (up : upload) : result DataFrame :=
  if String.eqb (file_extension (name up)) "csv"
  then read_csv up else read_excel up.

(** Lines 72 to 109. *)
Definition local_flow (c : config) (w : world) (s : session) : M unit :=
  dataset <- widget (st_file_uploader "Upload your CSV or XLSX file"
                                      ["csv"; "xlsx"])
                    (dataset s) ;;
  match dataset with
  | None => st_stop
  | Some up =>
      df <- try_except
              (lift (read_upload up))
              (fun e =>
                 emit (st_error ("Error reading file: " ++ exn_str e)) ;;
                 st_stop) ;;
      Cost.calculate_cost (encode w) (astype_str w) df ;;
      emit (st_write [VStr "Data Preview:"]) ;;
      emit (st_dataframe (VFrame (head df))) ;;
      col_desc <- widget (st_radio "Do you want to provide column descriptors?"
                                   ["Yes"; "No"])
                         (col_desc s) ;;
      addon <- (if String.eqb col_desc "Yes"
                then widget (st_text_input
                    "Enter your column description (e.g., 'col1': 'unique id')")
                    (addon_text s)
                else ret "None") ;;
      if String.eqb addon "" then ret tt
      else dispatch c w s df addon
  end.

(** Lines 111 to 117. *)
Definition storage_flow (c : config) (w : world) (s : session) : M unit :=
  bucket_name <- widget (st_text_input
                   "Provide your Google Cloud Storage bucket name")
                   (bucket_name s) ;;
  blob_name <- widget (st_text_input "Provide the blob/object name")
                      (blob_name s) ;;
  if String.eqb bucket_name "" || String.eqb blob_name "" then st_stop else
  df_bq <- lift (write_read (gcs w) bucket_name blob_name (projectid c)) ;;
  emit (st_write [VStr "Data Preview:"]) ;;
  emit (st_dataframe (VFrame (head df_bq))).

(** Lines 119 to 128.  Line 122 names no llm, so the engine falls back
    on the backend of the library itself.  As for lines 93 to 95 the
    call of the constructor is recorded and taken to return: what is
    stated of the steps after it supposes that the engine was built. *)
Definition yahoo_flow (w : world) (s : session) : M unit :=
  stock_symbol <- widget (st_text_input "Enter a stock symbol (e.g., MSFT)")
                         (stock_symbol s) ;;
  if String.eqb stock_symbol "" then st_stop else
  let positional := [VYahooFinanceConnector stock_symbol] in
  let keywords := [("config",
                    VDict [("response_parser", VClass "OutputParser")])] in
  emit (SmartDataframe positional keywords) ;;
  prompt <- widget (st_text_input "Enter your prompt") (yahoo_prompt s) ;;
  if String.eqb prompt "" then st_stop else
  emit (st_write [VStr "Response"]) ;;
  r <- sdf_chat w positional keywords prompt ;;
  emit st_divider ;;
  emit (st_code (last_code_executed r)).

Definition main (c : config) (w : world) (s : session) : M unit :=
  setup ;;
  task <- get_tasks s ;;
  if String.prefix "Load from local drive" task then local_flow c w s
  else if String.eqb task "Load from Google Storage" then storage_flow c w s
  else if String.eqb task "Yahoo Finance" then yahoo_flow w s
  else ret tt.

(** The column description that reaches line 90. *)
Definition addon_of (s : session) : string :=
  if String.eqb (col_desc s) "Yes" then addon_text s else "None".

(** What a run of the upload flow has shown when it reaches line 90,
    for a file read as [df]. *)
Definition shown_before_dispatch (w : world) (s : session)
           (df : DataFrame) : list event :=
  trace setup ++ trace (get_tasks s) ++
  [st_file_uploader "Upload your CSV or XLSX file" ["csv"; "xlsx"]] ++
  trace (Cost.calculate_cost (encode w) (astype_str w) df) ++
  [st_write [VStr "Data Preview:"];
   st_dataframe (VFrame (head df));
   st_radio "Do you want to provide column descriptors?" ["Yes"; "No"]] ++
  (if String.eqb (col_desc s) "Yes"
   then [st_text_input
           "Enter your column description (e.g., 'col1': 'unique id')"]
   else []).

(** The selection of the backend and the construction of the engine,
    lines 91 to 96. *)
Definition shown_by_selection (c : config) (s : session)
           (df : DataFrame) (addon : string) : list event :=
  [st_sidebar_header "Select an LLM" "rainbow";
   st_sidebar_radio "Choose a LLM:" ["OpenAI"; "Google Gemini"];
   SmartDataframe (engine_positional df addon)
                  (engine_keywords (choose_llm c (llm_choice s)));
   st_text_input "Enter your question/prompt."].

End App.

Import App.

(* ================================================================= *)
(** ** Sample inputs *)

Module Samples.

(** A bucket [datasets] with a few objects, as [csv.reader] reads
    them; anything else is not found. *)
Definition people : list (list string) :=
  [["id"; "name"]; ["1"; "a"]; ["2"; "b"]].
Definition repeated_header : list (list string) :=
  [["id"; "id"]; ["1"; "2"]].
Definition header_only : list (list string) :=
  [["id"; "name"]].
Definition wide_rows : list (list string) :=
  [["id"; "name"]; ["1"; "a"; "x"]; ["2"; "b"; "y"; "z"]].
Definition short_row : list (list string) :=
  [["id"; "name"]; ["1"; "a"]; ["2"]].

Definition not_found (what : string) : exn :=
  ExternalError "google.api_core.exceptions.NotFound" ("404 " ++ what).

Definition bucket : storage :=
  fun _ bucket_name blob_name =>
    if String.eqb bucket_name "datasets" then
      if String.eqb blob_name "people.csv" then Ok people
      else if String.eqb blob_name "repeated.csv" then Ok repeated_header
      else if String.eqb blob_name "header.csv" then Ok header_only
      else if String.eqb blob_name "wide.csv" then Ok wide_rows
      else if String.eqb blob_name "short.csv" then Ok short_row
      else Err (not_found "No such object")
    else Err (not_found "The specified bucket does not exist.").

(** A stand-in tokenizer, one token per character, and the text of a
    cell for string and integer cells. *)
Fixpoint one_per_char (s : string) : list Z :=
  match s with
  | EmptyString => []
  | String a s' => Z.of_nat (nat_of_ascii a) :: one_per_char s'
  end.

(** The text of a float to one decimal, which is how numpy writes the
    floats of the samples: 1.0 and 0.5. *)
Definition one_decimal (q : Q) : string :=
  let n := Qnum q in
  let d := Zpos (Qden q) in
  (NilZero.string_of_int (Z.to_int (n / d)) ++ "."
   ++ NilZero.string_of_int (Z.to_int ((10 * (n mod d)) / d)))%string.

Definition cell_text (c : cell) : string :=
  match c with
  | CStr s => s
  | CInt z => NilZero.string_of_int (Z.to_int z)
  | CFloat q => one_decimal q
  | CNaN => "nan"
  end.

Definition people_frame : DataFrame :=
  {| columns := ["id"; "name"];
     rows := [[CStr "1"; CStr "a"]; [CStr "2"; CStr "b"]] |}.

Definition env : config :=
  {| OPENAI_API_KEY := Some "sk-test";
     GOOGLE_API_KEY := Some "g-test";
     projectid := Some "demo" |}.

Definition people_upload : upload :=
  {| name := "people.CSV";
     read_csv := Ok people_frame;
     read_excel := Err (ExternalError "ValueError"
                          "Excel file format cannot be determined") |}.

(** Three query results, one of each variant. *)
Definition table_result : dict value :=
  [("type", VStr "dataframe"); ("value", VFrame people_frame)].
Definition plot_result : dict value :=
  [("type", VStr "plot"); ("value", VStr "exports/charts/temp_chart.png")].
Definition scalar_result : dict value :=
  [("type", VStr "string"); ("value", VStr "42")].

Definition answer : reply :=
  {| rendered := [scalar_result];
     response := VNone;
     last_code_executed := VStr "result = {'type': 'string', 'value': '42'}";
     tokens_used := 120;
     dollars := 2 # 10000 |}.

Definition bad_key : exn :=
  ExternalError "openai.AuthenticationError" "Incorrect API key provided".

(** What [chat] returns for an exception it caught. *)
Definition apology (e : exn) : reply :=
  {| rendered := [];
     response := VStr ("Unfortunately, I was not able to answer your question, because of the following error: "
                       ++ exn_str e);
     last_code_executed := VNone;
     tokens_used := 0;
     dollars := 0 |}.

(** An engine that answers, and one that fails in every call. *)
Definition answering : world :=
  {| encode := one_per_char; astype_str := cell_text; gcs := bucket;
     engine := fun _ _ _ => chat_returns answer;
     caught := apology |}.

Definition failing : world :=
  {| encode := one_per_char; astype_str := cell_text; gcs := bucket;
     engine := fun _ _ _ => chat_fails bad_key;
     caught := apology |}.

(** A run of the upload flow on [people.CSV]. *)
Definition ask (col_desc addon_text llm_choice : string) : session :=
  {| task := "Load from local drive, <200MB";
     dataset := Some people_upload;
     col_desc := col_desc;
     addon_text := addon_text;
     llm_choice := llm_choice;
     prompt := "How many rows are there?";
     bucket_name := "";
     blob_name := "";
     stock_symbol := "";
     yahoo_prompt := "" |}.

(** A run of the storage flow. *)
Definition fetch (bucket_name blob_name : string) : session :=
  {| task := "Load from Google Storage";
     dataset := None;
     col_desc := "Yes";
     addon_text := "";
     llm_choice := "OpenAI";
     prompt := "";
     bucket_name := bucket_name;
     blob_name := blob_name;
     stock_symbol := "";
     yahoo_prompt := "" |}.

End Samples.

(* ================================================================= *)
(** ** Notions used to state further properties *)

(** The header fields, each kept at its first occurrence only. *)
Definition distinct_fields (header : list string) : list string :=
  fold_left add_key header [].

(** The field of [row] at the last position where [header] has [k]. *)
Fixpoint last_field (k : string) (header row : list string)
  : option string :=
  match header, row with
  | h :: header', v :: row' =>
      match last_field k header' row' with
      | Some v' => Some v'
      | None => if String.eqb k h then Some v else None
      end
  | _, _ => None
  end.

(** The cell under the column [k] for a line of the file. *)
Definition field_cell (header row : list string) (k : string) : cell :=
  match last_field k header row with
  | Some v => CStr v
  | None => CNaN
  end.

(** Every row has one cell per column. *)
Definition rectangular (df : DataFrame) : Prop :=
  Forall (fun row => length row = length (columns df)) (rows df).

Definition is_text (c : cell) : bool :=
  match c with CStr _ => true | _ => false end.

Fixpoint has_dot (s : string) : bool :=
  match s with
  | EmptyString => false
  | String a s' => Ascii.eqb a "."%char || has_dot s'
  end.

(** The display call that [parse] makes for a result, if any. *)
Definition view_of (result : dict value) : list event :=
  match get result "type", get result "value" with
  | Some ty, Some v => [OutputParser.view (OutputParser.variant_of ty) v]
  | _, _ => []
  end.

(** The two lines written by [calculate_cost]. *)
Definition is_cost_report (ev : event) : bool :=
  match ev with
  | st_write (VStr s :: _) => String.eqb s "Tokens:" || String.eqb s "Cost:"
  | _ => false
  end.

(** The same widgets with another task selected. *)
Definition with_task (s : session) (t : string) : session :=
  {| task := t;
     dataset := dataset s;
     col_desc := col_desc s;
     addon_text := addon_text s;
     llm_choice := llm_choice s;
     prompt := prompt s;
     bucket_name := bucket_name s;
     blob_name := blob_name s;
     stock_symbol := stock_symbol s;
     yahoo_prompt := yahoo_prompt s |}.

(** The arguments of [SmartDataframe(...)] at line 122. *)
Definition yahoo_positional (symbol : string) : list value :=
  [VYahooFinanceConnector symbol].

Definition yahoo_keywords : dict value :=
  [("config", VDict [("response_parser", VClass "OutputParser")])].

(** What the finance flow has shown when it reaches line 125. *)
Definition shown_before_yahoo_chat (s : session) : list event :=
  trace setup ++ trace (get_tasks s) ++
  [st_text_input "Enter a stock symbol (e.g., MSFT)";
   SmartDataframe (yahoo_positional (stock_symbol s)) yahoo_keywords;
   st_text_input "Enter your prompt"].

(** What the storage flow has shown once both names are entered. *)
Definition shown_by_storage_inputs (s : session) : list event :=
  trace setup ++ trace (get_tasks s) ++
  [st_text_input "Provide your Google Cloud Storage bucket name";
   st_text_input "Provide the blob/object name"].

Module MoreSamples.

(** A run of the finance flow. *)
Definition quote (stock_symbol yahoo_prompt : string) : session :=
  {| task := "Yahoo Finance";
     dataset := None;
     col_desc := "Yes";
     addon_text := "";
     llm_choice := "OpenAI";
     prompt := "";
     bucket_name := "";
     blob_name := "";
     stock_symbol := stock_symbol;
     yahoo_prompt := yahoo_prompt |}.

Definition workbook : upload :=
  {| name := "notes.xlsx";
     read_csv := Ok Samples.people_frame;
     read_excel := Err (ExternalError "ValueError" "File is not a zip file") |}.

(** An upload flow run on a given file, with a given prompt. *)
Definition submit (file : option upload) (prompt : string) : session :=
  {| task := "Load from local drive, 200MB+";
     dataset := file;
     col_desc := "Yes";
     addon_text := "'id': 'unique id'";
     llm_choice := "OpenAI";
     prompt := prompt;
     bucket_name := "";
     blob_name := "";
     stock_symbol := "";
     yahoo_prompt := "" |}.

(** A second bucket: an empty object, and a file whose header names a
    column twice. *)
Definition repeated_id : list (list string) :=
  [["id"; "name"; "id"]; ["1"; "a"; "2"]; ["3"; "b"; "4"; "extra"]].

Definition shelf : storage :=
  fun _ bucket_name blob_name =>
    if String.eqb bucket_name "shelf" then
      if String.eqb blob_name "empty.csv" then Ok []
      else if String.eqb blob_name "ids.csv" then Ok repeated_id
      else Err (Samples.not_found "No such object")
    else Err (Samples.not_found "The specified bucket does not exist.").

(** Three rows of an integer and a float, a row that fits their
    columns, and a row that puts a text under the integers. *)
Definition halves : list (list cell) :=
  [[CInt 1; CFloat (1 # 2)]; [CInt 1; CFloat (1 # 2)];
   [CInt 1; CFloat (1 # 2)]].

Definition fitting_row : list cell := [CInt 2; CFloat (1 # 2)].

Definition letter_row : list cell := [CStr "x"; CFloat (1 # 2)].

(** The library's default backend with a key that the service
    rejects: every call of [chat] fails inside the engine. *)
Definition invalid_key : exn :=
  ExternalError "pandasai.exceptions.PandasAIApiCallError" "Invalid API key".

Definition refusing : world :=
  {| encode := Samples.one_per_char;
     astype_str := Samples.cell_text;
     gcs := Samples.bucket;
     engine := fun _ _ _ => chat_fails invalid_key;
     caught := Samples.apology |}.

End MoreSamples.

(* ================================================================= *)
(** ** Proof steps *)

(** Runs the script as far as its inputs are known. *)
Ltac run_script :=
cbn -[dispatch String.prefix String.eqb Cost.total_tokens Cost.cost_of
      head write_read render_all engine_positional engine_keywords
      choose_llm].

(** Closes a goal that asks for the rest of a trace after a known
  beginning. *)
Ltac rest_of_trace :=
cbn [St.bind trace ending fst snd];
rewrite <- ?app_assoc;
eexists; reflexivity.

(* ================================================================= *)
(** ** Dictionaries and frames built from records *)

Section DictFacts.

Context {V : Type}.

Lemma setitem_fresh (d : dict V) (k : string) (v : V) :
  ~ In k (keys d) -> setitem d k v = d ++ [(k, v)].
Proof.
  induction d as [|[k' v'] d IH]; simpl; intros Hk; [reflexivity|].
  destruct (String.eqb_spec k k') as [->|Hne].
  - exfalso. apply Hk. now left.
  - rewrite IH; [reflexivity|]. intros Hin. apply Hk. now right.
Qed.

Lemma get_cons_other (d : dict V) (k k' : string) (v : V) :
  k <> k' -> get ((k', v) :: d) k = get d k.
Proof.
  intros Hne. simpl. destruct (String.eqb_spec k k'); congruence.
Qed.

End DictFacts.

Section RecordFacts.

Local Open Scope nat_scope.

Lemma record_loop_long (h : list string) :
  forall (pre_h pre_r r : list string) (acc : dict cell),
    length pre_h = length pre_r ->
    length h <= length r ->
    record_loop (pre_h ++ h) (pre_r ++ r) (seq (length pre_h) (length h)) acc
    = Ok (fold_left store (combine h r) acc).
Proof.
  induction h as [|x h IH]; intros pre_h pre_r r acc Hpre Hlen; simpl.
  - reflexivity.
  - destruct r as [|y r]; simpl in Hlen; [lia|].
    unfold index.
    rewrite nth_error_app2, Nat.sub_diag by lia. simpl.
    rewrite Hpre at 1.
    rewrite nth_error_app2, Nat.sub_diag by lia. simpl.
    specialize (IH (pre_h ++ [x]) (pre_r ++ [y]) r (store acc (x, y))).
    rewrite <- !app_assoc, !length_app in IH. simpl in IH.
    rewrite Nat.add_1_r in IH. apply IH; lia.
Qed.

Lemma record_loop_short (h : list string) :
  forall (pre_h pre_r r : list string) (acc : dict cell),
    length pre_h = length pre_r ->
    length r < length h ->
    record_loop (pre_h ++ h) (pre_r ++ r) (seq (length pre_h) (length h)) acc
    = Err IndexError.
Proof.
  induction h as [|x h IH]; intros pre_h pre_r r acc Hpre Hlen; simpl in *.
  - lia.
  - unfold index.
    rewrite nth_error_app2, Nat.sub_diag by lia. simpl.
    destruct r as [|y r].
    + rewrite app_nil_r.
      destruct (nth_error pre_r (length pre_h)) eqn:E; [|reflexivity].
      assert (Hlt : length pre_h < length pre_r)
        by (apply nth_error_Some; congruence).
      lia.
    + rewrite Hpre at 1.
      rewrite nth_error_app2, Nat.sub_diag by lia. simpl.
      specialize (IH (pre_h ++ [x]) (pre_r ++ [y]) r (store acc (x, y))).
      rewrite <- !app_assoc, !length_app in IH. simpl in IH, Hlen.
      rewrite Nat.add_1_r in IH. apply IH; lia.
Qed.

Lemma row_record_long (header row : list string) :
  length header <= length row ->
  row_record header row = Ok (fold_left store (combine header row) []).
Proof.
  intros H. apply (record_loop_long header [] [] row []); auto.
Qed.

Lemma row_record_short (header row : list string) :
  length row < length header ->
  row_record header row = Err IndexError.
Proof.
  intros H. apply (record_loop_short header [] [] row []); auto.
Qed.

(** Fields beyond the header width do not reach the record. *)
Lemma row_record_firstn (header row : list string) :
  length header <= length row ->
  row_record header (firstn (length header) row) = row_record header row.
Proof.
  intros H.
  rewrite (row_record_long header row H).
  rewrite row_record_long by (rewrite length_firstn; lia).
  assert (E : forall (h r : list string),
             combine h (firstn (length h) r) = combine h r).
  { induction h as [|x h IH]; intros [|y r]; simpl; auto.
    now rewrite IH. }
  now rewrite E.
Qed.

Lemma comprehension_ok {A B} (f : A -> result B) (g : A -> B) (xs : list A) :
  Forall (fun x => f x = Ok (g x)) xs ->
  comprehension f xs = Ok (map g xs).
Proof.
  induction 1 as [|x xs Hx _ IH]; simpl; [reflexivity|].
  now rewrite Hx, IH.
Qed.

Lemma comprehension_ext {A B} (f g : A -> result B) (xs : list A) :
  Forall (fun x => f x = g x) xs ->
  comprehension f xs = comprehension g xs.
Proof.
  induction 1 as [|x xs Hx _ IH]; simpl; [reflexivity|].
  now rewrite Hx, IH.
Qed.

Lemma comprehension_map {A B C} (f : B -> result C) (g : A -> B)
      (xs : list A) :
  comprehension f (map g xs) = comprehension (fun x => f (g x)) xs.
Proof.
  induction xs as [|x xs IH]; simpl; [reflexivity|]. now rewrite IH.
Qed.

Lemma comprehension_length {A B} (f : A -> result B) (xs : list A)
      (ys : list B) :
  comprehension f xs = Ok ys -> length ys = length xs.
Proof.
  revert ys. induction xs as [|x xs IH]; simpl; intros ys H.
  - now inversion H.
  - destruct (f x); simpl in H; [|discriminate].
    destruct (comprehension f xs); simpl in H; [|discriminate].
    inversion H; subst. simpl. now rewrite (IH _ eq_refl).
Qed.

Lemma comprehension_short (header : list string) (data : list (list string)) :
  Exists (fun row => length row < length header) data ->
  comprehension (row_record header) data = Err IndexError.
Proof.
  induction data as [|row data IH]; intros H.
  - inversion H.
  - simpl.
    destruct (Nat.le_gt_cases (length header) (length row)) as [Hle|Hlt].
    + rewrite (row_record_long _ _ Hle). simpl.
      rewrite IH; [reflexivity|].
      inversion H; subst; [lia|assumption].
    + now rewrite (row_record_short _ _ Hlt).
Qed.

End RecordFacts.

Section FrameFacts.

Local Open Scope nat_scope.

Lemma keys_paired (header row : list string) :
  length header = length row -> keys (paired header row) = header.
Proof.
  revert row. induction header as [|x h IH]; intros [|y r] H;
    simpl in *; try discriminate; auto.
  unfold keys, paired in *. simpl. f_equal. apply IH. lia.
Qed.

Lemma store_distinct (h : list string) :
  forall (r : list string) (acc : dict cell),
    NoDup (keys acc ++ h) ->
    length h = length r ->
    fold_left store (combine h r) acc = acc ++ paired h r.
Proof.
  induction h as [|x h IH]; intros [|y r] acc Hnd Hlen;
    simpl in *; try discriminate.
  - now rewrite app_nil_r.
  - unfold store at 2. simpl.
    assert (Hx : ~ In x (keys acc)).
    { apply NoDup_remove_2 in Hnd. intros Hin. apply Hnd.
      apply in_or_app. now left. }
    rewrite setitem_fresh by assumption.
    rewrite IH.
    + unfold paired. simpl. now rewrite <- app_assoc.
    + unfold keys in *. rewrite map_app. simpl.
      rewrite <- app_assoc. exact Hnd.
    + lia.
Qed.

Lemma row_record_distinct (header row : list string) :
  NoDup header ->
  length row = length header ->
  row_record header row = Ok (paired header row).
Proof.
  intros Hnd Hlen. rewrite row_record_long by lia.
  now rewrite store_distinct by (simpl; auto).
Qed.

Lemma add_key_known (cols : list string) (k : string) :
  In k cols -> add_key cols k = cols.
Proof.
  intros Hin. unfold add_key.
  assert (E : existsb (String.eqb k) cols = true).
  { apply existsb_exists. exists k. split; [assumption|apply String.eqb_refl]. }
  now rewrite E.
Qed.

Lemma add_key_new (cols : list string) (k : string) :
  ~ In k cols -> add_key cols k = cols ++ [k].
Proof.
  intros Hin. unfold add_key.
  destruct (existsb (String.eqb k) cols) eqn:E; [|reflexivity].
  apply existsb_exists in E. destruct E as [k' [Hk' E]].
  apply String.eqb_eq in E. subst. contradiction.
Qed.

Lemma add_keys_known (ks cols : list string) :
  incl ks cols -> fold_left add_key ks cols = cols.
Proof.
  induction ks as [|k ks IH]; intros Hincl; simpl; [reflexivity|].
  rewrite add_key_known by (apply Hincl; now left).
  apply IH. intros x Hx. apply Hincl. now right.
Qed.

Lemma add_keys_new (ks : list string) :
  forall cols, NoDup (cols ++ ks) -> fold_left add_key ks cols = cols ++ ks.
Proof.
  induction ks as [|k ks IH]; intros cols Hnd; simpl.
  - now rewrite app_nil_r.
  - rewrite add_key_new.
    + rewrite IH; rewrite <- app_assoc; [reflexivity|exact Hnd].
    + apply NoDup_remove_2 in Hnd. intros Hin. apply Hnd.
      apply in_or_app. now left.
Qed.

(** Records that all carry the keys [header], in that order, give the
    columns [header], provided there is at least one record. *)
Lemma union_keys_uniform (header : list string) (recs : list (dict cell)) :
  NoDup header ->
  recs <> [] ->
  Forall (fun r => keys r = header) recs ->
  union_keys recs = header.
Proof.
  intros Hnd Hne Hall. unfold union_keys.
  destruct recs as [|r recs]; [congruence|].
  pose proof (Forall_inv Hall) as Hr. simpl in Hr.
  pose proof (Forall_inv_tail Hall) as Hrest. simpl.
  rewrite Hr, add_keys_new by (simpl; assumption). simpl.
  clear Hne Hall Hr. induction Hrest as [|r' recs Hr' _ IH]; simpl.
  - reflexivity.
  - rewrite Hr', add_keys_known by apply incl_refl. exact IH.
Qed.

Lemma cells_of_paired (header row : list string) :
  NoDup header ->
  length row = length header ->
  map (cell_of (paired header row)) header = map CStr row.
Proof.
  revert row. induction header as [|x h IH]; intros [|y r] Hnd Hlen;
    simpl in *; try discriminate; auto.
  inversion Hnd as [|? ? Hx Hh]; subst.
  unfold paired. simpl. unfold cell_of at 1. simpl.
  rewrite String.eqb_refl. f_equal.
  transitivity (map (cell_of (paired h r)) h); [|apply IH; [assumption|lia]].
  apply map_ext_in. intros k Hk. unfold cell_of.
  rewrite get_cons_other; [reflexivity|].
  intros ->. contradiction.
Qed.

(** A header row alone: there is no record, hence no column. *)
Lemma frame_of_header_only (header : list string) :
  frame_of_lines [header] = Ok {| columns := []; rows := [] |}.
Proof. reflexivity. Qed.

Lemma frame_of_lines_distinct (header : list string)
      (data : list (list string)) :
  NoDup header ->
  data <> [] ->
  Forall (fun row => length row = length header) data ->
  frame_of_lines (header :: data)
  = Ok {| columns := header; rows := map (map CStr) data |}.
Proof.
  intros Hnd Hne Hall. simpl.
  rewrite (comprehension_ok _ (paired header)).
  2:{ eapply Forall_impl; [|exact Hall].
      intros row Hrow. now apply row_record_distinct. }
  simpl. unfold DataFrame_of_records.
  rewrite (union_keys_uniform header).
  - do 2 f_equal. rewrite map_map. apply map_ext_in. intros row Hrow.
    apply cells_of_paired; [assumption|].
    rewrite Forall_forall in Hall. now apply Hall.
  - assumption.
  - destruct data; [congruence|discriminate].
  - apply Forall_map. eapply Forall_impl; [|exact Hall].
    intros row Hrow. now apply keys_paired.
Qed.

End FrameFacts.

(* ================================================================= *)
(** ** The cloud-blob loader *)

Section LoaderClaims.

Local Open Scope nat_scope.

Variable gcs : storage.
Variables bucket_name blob_name : string.
Variable projectid : option string.

(** C2, as amended.  When the header fields are pairwise distinct and
    there is at least one data row, a file with header [header] and [N]
    data rows, each as wide as the header, loads as a table with [N]
    rows and as many columns as the header has fields, the column
    names being the header fields in order and each row holding the
    fields of its line. *)
Theorem write_read_shape (header : list string) (data : list (list string)) :
  gcs projectid bucket_name blob_name = Ok (header :: data) ->
  NoDup header ->
  data <> [] ->
  Forall (fun row => length row = length header) data ->
  exists df,
    write_read gcs bucket_name blob_name projectid = Ok df /\
    shape df = (length data, length header) /\
    columns df = header /\
    rows df = map (map CStr) data.
Proof.
  intros Hblob Hnd Hne Hall.
  exists {| columns := header; rows := map (map CStr) data |}.
  unfold write_read. rewrite Hblob. unfold rbind.
  rewrite frame_of_lines_distinct by assumption.
  unfold shape. simpl. now rewrite length_map.
Qed.

(** C10.  Each data row is read at the positions of the header.  When
    every row has at least as many fields as the header the load
    succeeds, and gives the table of the same file with each row cut
    to the header width: further fields are dropped.  When some row
    has fewer fields than the header the load fails with an index
    error. *)
Theorem write_read_row_bounds (header : list string)
        (data : list (list string)) :
  gcs projectid bucket_name blob_name = Ok (header :: data) ->
  (Forall (fun row => length header <= length row) data ->
   exists df,
     write_read gcs bucket_name blob_name projectid = Ok df /\
     frame_of_lines (header :: map (firstn (length header)) data) = Ok df /\
     length (rows df) = length data) /\
  (Exists (fun row => length row < length header) data ->
   write_read gcs bucket_name blob_name projectid = Err IndexError).
Proof.
  intros Hblob. unfold write_read. rewrite Hblob.
  change (rbind (Ok (header :: data)) frame_of_lines)
    with (frame_of_lines (header :: data)).
  split.
  - intros Hall.
    set (cut := fun row : list string => firstn (length header) row).
    assert (E : comprehension (row_record header) (map cut data)
                = comprehension (row_record header) data).
    { rewrite comprehension_map. apply comprehension_ext.
      eapply Forall_impl; [|exact Hall].
      intros row Hrow. now apply row_record_firstn. }
    assert (R : comprehension (row_record header) data
                = Ok (map (fun row => fold_left store (combine header row) [])
                          data)).
    { apply comprehension_ok. eapply Forall_impl; [|exact Hall].
      intros row Hrow. now apply row_record_long. }
    simpl. fold cut. rewrite E, R. simpl.
    eexists. split; [reflexivity|]. split; [reflexivity|].
    simpl. now rewrite !length_map.
  - intros Hex. simpl. now rewrite comprehension_short.
Qed.

End LoaderClaims.

(** The header [id,name] with the rows [1,a] and [2,b]. *)
Lemma write_read_shape_people :
exists df,
  write_read Samples.bucket "datasets" "people.csv" None = Ok df /\
  shape df = (2, 2)%nat /\
  columns df = ["id"; "name"] /\
  rows df = [[CStr "1"; CStr "a"]; [CStr "2"; CStr "b"]].
Proof.
apply (write_read_shape Samples.bucket "datasets" "people.csv" None
         ["id"; "name"] [["1"; "a"]; ["2"; "b"]]).
- reflexivity.
- repeat constructor; simpl; intuition discriminate.
- discriminate.
- repeat constructor.
Defined.

(** C2 as stated fails on two well-formed files: a header that repeats
  a field gives fewer columns than the header has fields, and a header
  with no data row gives a table with no column at all. *)
Lemma write_read_shape_counterexample :
(Forall (fun row => length row = 2%nat) [["1"; "2"]] /\
 write_read Samples.bucket "datasets" "repeated.csv" None
 = Ok {| columns := ["id"]; rows := [[CStr "2"]] |} /\
 ~ (exists df,
      write_read Samples.bucket "datasets" "repeated.csv" None = Ok df /\
      shape df = (1, 2)%nat /\ columns df = ["id"; "id"])) /\
(write_read Samples.bucket "datasets" "header.csv" None
 = Ok {| columns := []; rows := [] |} /\
 ~ (exists df,
      write_read Samples.bucket "datasets" "header.csv" None = Ok df /\
      shape df = (0, 2)%nat /\ columns df = ["id"; "name"])).
Proof.
split; (split; [repeat constructor|]); try split; try reflexivity.
- intros [df [H [_ Hc]]]. vm_compute in H. inversion H; subst.
  discriminate.
- intros [df [H [_ Hc]]]. vm_compute in H. inversion H; subst.
  discriminate.
Qed.

Lemma write_read_row_bounds_wide :
(exists df,
    write_read Samples.bucket "datasets" "wide.csv" None = Ok df /\
    frame_of_lines [["id"; "name"]; ["1"; "a"]; ["2"; "b"]] = Ok df /\
    length (rows df) = 2%nat) /\
write_read Samples.bucket "datasets" "short.csv" None = Err IndexError.
Proof.
split.
- apply (write_read_row_bounds Samples.bucket "datasets" "wide.csv" None
           ["id"; "name"] [["1"; "a"; "x"]; ["2"; "b"; "y"; "z"]]).
  + reflexivity.
  + repeat constructor.
- apply (write_read_row_bounds Samples.bucket "datasets" "short.csv" None
           ["id"; "name"] [["1"; "a"]; ["2"]]).
  + reflexivity.
  + right. left. simpl. lia.
Defined.

(* ================================================================= *)
(** ** The cost estimator *)

Lemma string_app_assoc (a b c : string) :
((a ++ b) ++ c = a ++ b ++ c)%string.
Proof.
induction a as [|x a IH]; simpl; [reflexivity|]. now rewrite IH.
Qed.

Lemma sum_from (xs : list Z) (a : Z) :
fold_left Z.add xs a = a + fold_left Z.add xs 0.
Proof.
revert a. induction xs as [|x xs IH]; intros a; simpl; [lia|].
rewrite (IH (a + x)), (IH x). lia.
Qed.

Lemma sum_cons (x : Z) (xs : list Z) : sum (x :: xs) = x + sum xs.
Proof. unfold sum. simpl. apply sum_from. Qed.

Lemma sum_app (xs ys : list Z) : sum (xs ++ ys) = sum xs + sum ys.
Proof.
induction xs as [|x xs IH]; simpl.
- replace (sum []) with 0 by reflexivity. lia.
- rewrite !sum_cons, IH. lia.
Qed.

Section CostClaims.

Variable encode : string -> list Z.
Variable astype_str : cell -> string.

Lemma join_from_spaced (xs : list string) :
  forall acc,
    join_from " " acc xs
    = match xs with
      | [] => acc
      | _ :: _ => (acc ++ " " ++ Cost.spaced xs)%string
      end.
Proof.
  induction xs as [|x xs IH]; intros acc; [reflexivity|].
  simpl join_from. rewrite IH.
  destruct xs as [|y xs]; [reflexivity|].
  change (Cost.spaced (x :: y :: xs))
    with (x ++ " " ++ Cost.spaced (y :: xs))%string.
  now rewrite !string_app_assoc.
Qed.

Lemma join_spaced (xs : list string) : join " " xs = Cost.spaced xs.
Proof.
  destruct xs as [|x xs]; [reflexivity|].
  unfold join. rewrite join_from_spaced.
  destruct xs; reflexivity.
Qed.

Lemma row_tokens_spec (row : list cell) :
  Cost.row_tokens encode astype_str row
  = Cost.tokens_of_row encode astype_str row.
Proof.
  unfold Cost.row_tokens, Cost.tokens_of_row. now rewrite join_spaced.
Qed.

Lemma row_tokens_nonneg (row : list cell) :
  0 <= Cost.row_tokens encode astype_str row.
Proof. unfold Cost.row_tokens. lia. Qed.

Lemma total_tokens_spec (df : DataFrame) :
  Cost.total_tokens encode astype_str df
  = Cost.token_count encode astype_str (rows df).
Proof.
  unfold Cost.total_tokens.
  induction (rows df) as [|row table IH]; [reflexivity|].
  simpl map. rewrite sum_cons, IH, row_tokens_spec. reflexivity.
Qed.

(** C1.  The token count that [calculate_cost] reports is the sum over
    the rows of the number of tokens of the row's cell texts joined,
    in column order, by single spaces, and the cost it reports is that
    count times 0.0005 divided by 1000. *)
Theorem calculate_cost_estimate (df : DataFrame) :
  let n := Cost.token_count encode astype_str (rows df) in
  Cost.calculate_cost encode astype_str df
  = ([st_write [VStr "Tokens:"; VInt n];
      st_write [VStr "Cost:";
                VFloat (inject_Z n * (5 # 10000) / inject_Z 1000)%Q]],
     Done tt).
Proof.
  intros n. unfold Cost.calculate_cost. rewrite total_tokens_spec.
  reflexivity.
Qed.

Lemma cost_of_monotone (a b : Z) :
  a <= b -> (Cost.cost_of a <= Cost.cost_of b)%Q.
Proof.
  intros Hab. unfold Cost.cost_of, Qdiv.
  apply Qmult_le_compat_r; [|discriminate].
  apply Qmult_le_compat_r; [|discriminate].
  now rewrite <- Zle_Qle.
Qed.

Lemma iterrows_same_types (values : list (list cell)) (row : list cell) :
  column_dtypes (values ++ [row]) = column_dtypes values ->
  iterrows (values ++ [row])
  = iterrows values
      ++ [cast_along (frame_dtype (column_dtypes values))
                     (column_dtypes values) row].
Proof.
  intros Hsame. unfold iterrows. rewrite Hsame. now rewrite map_app.
Qed.

(** C8, as amended.  Appending a row that leaves the type of every
    column as it was, or appending to a table without rows, never lowers
    the token count, nor the cost computed from it. *)
Theorem append_row_monotone (cols : list string)
        (values : list (list cell)) (row : list cell) :
  values = [] \/ column_dtypes (values ++ [row]) = column_dtypes values ->
  Cost.total_tokens encode astype_str (frame_of_values cols values)
  <= Cost.total_tokens encode astype_str
       (frame_of_values cols (values ++ [row])) /\
  (Cost.cost_of
     (Cost.total_tokens encode astype_str (frame_of_values cols values))
   <= Cost.cost_of
        (Cost.total_tokens encode astype_str
           (frame_of_values cols (values ++ [row]))))%Q.
Proof.
  intros Hsame.
  assert (H : Cost.total_tokens encode astype_str (frame_of_values cols values)
              <= Cost.total_tokens encode astype_str
                   (frame_of_values cols (values ++ [row]))).
  { unfold Cost.total_tokens, frame_of_values. simpl rows.
    destruct Hsame as [-> | Hsame].
    - replace (sum (map (Cost.row_tokens encode astype_str) (iterrows [])))
        with 0 by reflexivity.
      simpl app. generalize (iterrows [row]). intros table.
      induction table as [|r table IH]; [reflexivity|].
      simpl map. rewrite sum_cons.
      pose proof (row_tokens_nonneg r). lia.
    - rewrite (iterrows_same_types _ _ Hsame), map_app, sum_app.
      simpl map. rewrite sum_cons.
      pose proof (row_tokens_nonneg
                    (cast_along (frame_dtype (column_dtypes values))
                                (column_dtypes values) row)) as Hrow.
      replace (sum []) with 0 by reflexivity. lia. }
  split; [exact H|]. now apply cost_of_monotone.
Qed.

End CostClaims.

(** C8 as stated fails when the appended row changes a column's type:
    three rows of an integer and a float read "1.0 0.5" each; with a row
    that puts a text under the integers the same rows read "1 0.5", and
    under a tokenizer of one token per character the count goes from 21
    down to 20. *)
Lemma append_row_counterexample :
  rows (frame_of_values ["n"; "x"] MoreSamples.halves)
  = [[CFloat 1; CFloat (1 # 2)]; [CFloat 1; CFloat (1 # 2)];
     [CFloat 1; CFloat (1 # 2)]] /\
  rows (frame_of_values ["n"; "x"]
          (MoreSamples.halves ++ [MoreSamples.letter_row]))
  = [[CInt 1; CFloat (1 # 2)]; [CInt 1; CFloat (1 # 2)];
     [CInt 1; CFloat (1 # 2)]; [CStr "x"; CFloat (1 # 2)]] /\
  Cost.total_tokens Samples.one_per_char Samples.cell_text
    (frame_of_values ["n"; "x"] MoreSamples.halves) = 21 /\
  Cost.total_tokens Samples.one_per_char Samples.cell_text
    (frame_of_values ["n"; "x"]
       (MoreSamples.halves ++ [MoreSamples.letter_row])) = 20 /\
  ~ (Cost.total_tokens Samples.one_per_char Samples.cell_text
       (frame_of_values ["n"; "x"] MoreSamples.halves)
     <= Cost.total_tokens Samples.one_per_char Samples.cell_text
          (frame_of_values ["n"; "x"]
             (MoreSamples.halves ++ [MoreSamples.letter_row]))).
Proof.
  repeat split; try reflexivity.
  vm_compute. intros H. now apply H.
Qed.

(** A row of an integer and a float keeps both column types. *)
Lemma append_row_monotone_fitting :
  Cost.total_tokens Samples.one_per_char Samples.cell_text
    (frame_of_values ["n"; "x"] MoreSamples.halves)
  <= Cost.total_tokens Samples.one_per_char Samples.cell_text
       (frame_of_values ["n"; "x"]
          (MoreSamples.halves ++ [MoreSamples.fitting_row])) /\
  (Cost.cost_of
     (Cost.total_tokens Samples.one_per_char Samples.cell_text
        (frame_of_values ["n"; "x"] MoreSamples.halves))
   <= Cost.cost_of
        (Cost.total_tokens Samples.one_per_char Samples.cell_text
           (frame_of_values ["n"; "x"]
              (MoreSamples.halves ++ [MoreSamples.fitting_row]))))%Q.
Proof.
  apply (append_row_monotone Samples.one_per_char Samples.cell_text
           ["n"; "x"] MoreSamples.halves MoreSamples.fitting_row).
  right. reflexivity.
Defined.

(** The table of the header [id,name] with the rows [1,a] and [2,b],
  under a tokenizer of one token per character: three tokens a row. *)
Example calculate_cost_people :
Cost.calculate_cost Samples.one_per_char Samples.cell_text
                    Samples.people_frame
= ([st_write [VStr "Tokens:"; VInt 6];
    st_write [VStr "Cost:";
              VFloat (inject_Z 6 * (5 # 10000) / inject_Z 1000)%Q]],
   Done tt).
Proof. reflexivity. Qed.

(* ================================================================= *)
(** ** The response renderer *)

(** C6.  On a result that carries a tag and a payload, [parse] makes
  exactly one display call and ends normally.  The tag alone chooses
  the call: the tabular view for a table, the image view for an image,
  plain text for anything else. *)
Theorem parse_one_view (result : dict value) (ty v : value) :
OutputParser.well_formed result ty v ->
OutputParser.parse result
= ([OutputParser.view (OutputParser.variant_of ty) v], Done tt).
Proof.
intros [Hty Hv].
unfold OutputParser.parse, OutputParser.variant_of, getitem.
rewrite Hty, Hv. simpl.
destruct (OutputParser.eq_str ty "dataframe"); [reflexivity|].
destruct (OutputParser.eq_str ty "plot"); reflexivity.
Qed.

(** A plot goes to the image view and nowhere else; the scalar 42 goes
  to plain text and nowhere else. *)
Lemma parse_one_view_samples :
OutputParser.parse Samples.plot_result
= ([st_image (VStr "exports/charts/temp_chart.png")], Done tt) /\
OutputParser.parse Samples.scalar_result
= ([st_write [VStr "42"]], Done tt) /\
OutputParser.parse Samples.table_result
= ([st_dataframe (VFrame Samples.people_frame)], Done tt).
Proof.
split; [|split].
- apply (parse_one_view Samples.plot_result (VStr "plot")
           (VStr "exports/charts/temp_chart.png")).
  split; reflexivity.
- apply (parse_one_view Samples.scalar_result (VStr "string") (VStr "42")).
  split; reflexivity.
- apply (parse_one_view Samples.table_result (VStr "dataframe")
           (VFrame Samples.people_frame)).
  split; reflexivity.
Defined.

(* ================================================================= *)
(** ** Traces of the script *)

Lemma bind_done {A B} (t : list event) (a : A) (f : A -> M B) :
St.bind (t, Done a) f = (t ++ trace (f a), ending (f a)).
Proof. unfold St.bind. now destruct (f a). Qed.

Lemma parse_trace_display (result : dict value) :
Forall (fun ev => is_display ev = true) (trace (OutputParser.parse result)).
Proof.
unfold OutputParser.parse, getitem.
destruct (get result "type") as [ty|]; simpl; [|constructor].
destruct (OutputParser.eq_str ty "dataframe").
- destruct (get result "value"); simpl; repeat constructor.
- destruct (OutputParser.eq_str ty "plot");
    destruct (get result "value"); simpl; repeat constructor.
Qed.

Lemma render_from_display (results : list (dict value)) :
forall m : M unit,
  Forall (fun ev => is_display ev = true) (trace m) ->
  Forall (fun ev => is_display ev = true)
         (trace (fold_left (fun m res => m ;; OutputParser.parse res)
                           results m)).
Proof.
induction results as [|res results IH]; intros m Hm; simpl; [exact Hm|].
apply IH. destruct m as [t [[]| |e]]; simpl; try exact Hm.
pose proof (parse_trace_display res) as Hp.
destruct (OutputParser.parse res) as [t' o]. simpl in *.
apply Forall_app. now split.
Qed.

Lemma render_all_display (results : list (dict value)) :
Forall (fun ev => is_display ev = true) (trace (render_all results)).
Proof. apply render_from_display. constructor. Qed.

Lemma parse_never_stops (result : dict value) :
  ending (OutputParser.parse result) <> Stopped.
Proof.
  unfold OutputParser.parse, getitem.
  destruct (get result "type") as [ty|]; simpl; [|discriminate].
  destruct (OutputParser.eq_str ty "dataframe");
    [|destruct (OutputParser.eq_str ty "plot")];
    destruct (get result "value"); simpl; discriminate.
Qed.

Lemma render_never_stops (results : list (dict value)) :
  forall m : M unit,
    ending m <> Stopped ->
    ending (fold_left (fun m res => m ;; OutputParser.parse res) results m)
    <> Stopped.
Proof.
  induction results as [|res results IH]; intros m Hm; simpl; [exact Hm|].
  apply IH. destruct m as [t [[]| |e]]; simpl in *; try congruence.
  pose proof (parse_never_stops res) as Hp.
  destruct (OutputParser.parse res) as [t' o]. exact Hp.
Qed.

Lemma render_and_return_shape (keywords : dict value) (r : reply) :
  exists t o,
    render_and_return keywords r = (t, o) /\
    Forall (fun ev => is_display ev = true) t /\
    (o = Done r \/ exists e, o = Raised e).
Proof.
  unfold render_and_return.
  assert (Hrender :
            forall m : M unit,
              ending m <> Stopped ->
              Forall (fun ev => is_display ev = true) (trace m) ->
              exists t o,
                (m ;; ret r) = (t, o) /\
                Forall (fun ev => is_display ev = true) t /\
                (o = Done r \/ exists e, o = Raised e)).
  { intros [t [[]| |e]] Hend Hdisp; simpl in *.
    - exists t, (Done r). rewrite app_nil_r. auto.
    - congruence.
    - exists t, (Raised e). eauto. }
  assert (Hall : Forall (fun ev => is_display ev = true)
                        (trace (render_all (rendered r)))
                 /\ ending (render_all (rendered r)) <> Stopped).
  { split; [apply render_all_display|].
    apply render_never_stops. discriminate. }
  destruct Hall as [Hdisp Hend].
  assert (Hnone : exists t o,
             (ret tt ;; ret r) = (t, o) /\
             Forall (fun ev => is_display ev = true) t /\
             (o = Done r \/ exists e, o = Raised e)).
  { apply Hrender; [discriminate|constructor]. }
  destruct (configured keywords "response_parser") as [v|]; [|exact Hnone].
  destruct v; try exact Hnone.
  repeat (match goal with
          | |- context [match ?x with EmptyString => _ | String _ _ => _ end] =>
              destruct x; try exact Hnone
          | |- context [match ?x with Ascii _ _ _ _ _ _ _ _ => _ end] =>
              destruct x
          | |- context [if ?b then _ else _] =>
              destruct b; try exact Hnone
          end).
  now apply Hrender.
Qed.

(** [chat] always returns: it is called once, what it shows are display
    calls of the parser, and it hands back a reply. *)
Lemma sdf_chat_returns (w : world) (positional : list value)
      (keywords : dict value) (query : string) :
  exists t r,
    sdf_chat w positional keywords query
    = (chat positional keywords query :: t, Done r) /\
    Forall (fun ev => is_display ev = true) t.
Proof.
  unfold sdf_chat.
  destruct (engine w positional keywords query) as [r|e].
  2:{ exists [], (caught w e). split; [reflexivity|constructor]. }
  destruct (render_and_return_shape keywords r) as [t [o [E [Hdisp Ho]]]].
  rewrite E. destruct Ho as [-> | [e ->]]; simpl.
  - exists t, r. now split.
  - exists t, (caught w e). rewrite app_nil_r. now split.
Qed.

Section MainFacts.

Variable c : config.
Variable w : world.
Variable s : session.

(** The upload flow up to line 90, for a file that was read. *)
Lemma main_upload_flow (up : upload) (df : DataFrame) :
  String.prefix "Load from local drive" (task s) = true ->
  dataset s = Some up ->
  read_upload up = Ok df ->
  main c w s
  = if String.eqb (addon_of s) ""
    then (shown_before_dispatch w s df, Done tt)
    else (shown_before_dispatch w s df
            ++ trace (dispatch c w s df (addon_of s)),
          ending (dispatch c w s df (addon_of s))).
Proof.
  intros Htask Hup Hread.
  unfold main, shown_before_dispatch, addon_of.
  run_script.
  rewrite Htask. unfold local_flow.
  run_script.
  rewrite Hup, Hread.
  run_script.
  destruct (String.eqb (col_desc s) "Yes");
    run_script.
  - destruct (String.eqb (addon_text s) ""); [reflexivity|].
    destruct (dispatch c w s df (addon_text s)) as [t o]. reflexivity.
  - change (String.eqb "None" "") with false.
    run_script.
    destruct (dispatch c w s df "None") as [t o]. reflexivity.
Qed.

Lemma shown_before_dispatch_quiet (df : DataFrame) :
  forallb (fun ev => negb (is_error ev || is_chat ev || is_engine ev
                           || is_backend_choice ev || is_prompt_entry ev))
          (shown_before_dispatch w s df) = true.
Proof.
  unfold shown_before_dispatch. simpl.
  destruct (String.eqb (col_desc s) "Yes"); reflexivity.
Qed.

End MainFacts.

Section DispatchFacts.

Variable c : config.
Variable w : world.
Variable s : session.
Variable df : DataFrame.
Variable addon : string.

Lemma dispatch_no_prompt :
  String.eqb (prompt s) "" = true ->
  dispatch c w s df addon = (shown_by_selection c s df addon, Stopped).
Proof.
  intros Hprompt. unfold dispatch, shown_by_selection.
  run_script. rewrite Hprompt. reflexivity.
Qed.

Lemma dispatch_other_backend :
  String.eqb (llm_choice s) "OpenAI" = false ->
  String.eqb (prompt s) "" = false ->
  dispatch c w s df addon
  = (shown_by_selection c s df addon ++ [st_write [VStr "Response"]],
     Raised NotAContextManager).
Proof.
  intros Hllm Hprompt. unfold dispatch, shown_by_selection.
  run_script. rewrite Hprompt, Hllm. reflexivity.
Qed.

(** Past line 100 with the handler of OpenAI: [chat] is called and
    lines 102 to 109 run. *)
Lemma dispatch_openai :
  String.eqb (llm_choice s) "OpenAI" = true ->
  String.eqb (prompt s) "" = false ->
  exists t r,
    dispatch c w s df addon
    = (shown_by_selection c s df addon
         ++ [st_write [VStr "Response"];
             get_openai_callback;
             chat (engine_positional df addon)
                  (engine_keywords (choose_llm c (llm_choice s)))
                  (prompt s)]
         ++ t
         ++ [st_write [response r];
             st_divider;
             st_write [VStr "🧞‍♂️ Under the hood, the code that was executed:"];
             st_code (last_code_executed r);
             st_divider;
             st_write [VStr "💰 Tokens used and your cost:"];
             st_write [show (metered fresh_handler r)]],
       Done tt) /\
    Forall (fun ev => is_display ev = true) t.
Proof.
  intros Hllm Hprompt.
  destruct (sdf_chat_returns w (engine_positional df addon)
              (engine_keywords (choose_llm c (llm_choice s))) (prompt s))
    as [t [r [E Hdisp]]].
  exists t, r. split; [|exact Hdisp].
  unfold dispatch, shown_by_selection.
  cbn -[String.eqb sdf_chat engine_positional engine_keywords choose_llm].
  rewrite Hprompt, Hllm.
  cbn -[String.eqb sdf_chat engine_positional engine_keywords choose_llm].
  rewrite E. reflexivity.
Qed.

End DispatchFacts.

Section UploadFacts.

Variable c : config.
Variable w : world.
Variable s : session.

Hypothesis Htask : String.prefix "Load from local drive" (task s) = true.

Lemma main_upload_missing :
  dataset s = None ->
  main c w s
  = (trace setup ++ trace (get_tasks s)
       ++ [st_file_uploader "Upload your CSV or XLSX file" ["csv"; "xlsx"]],
     Stopped).
Proof.
  intros Hup. unfold main. run_script. rewrite Htask.
  unfold local_flow. run_script. rewrite Hup. reflexivity.
Qed.

Lemma main_upload_unreadable (up : upload) (e : exn) :
  dataset s = Some up ->
  read_upload up = Err e ->
  main c w s
  = (trace setup ++ trace (get_tasks s)
       ++ [st_file_uploader "Upload your CSV or XLSX file" ["csv"; "xlsx"];
           st_error ("Error reading file: " ++ exn_str e)],
     Stopped).
Proof.
  intros Hup Hread. unfold main. run_script. rewrite Htask.
  unfold local_flow. run_script. rewrite Hup, Hread. reflexivity.
Qed.

(** The engine is built, and called, only by the dispatcher and only
    with the arguments of lines 93 to 95. *)
Lemma dispatch_engine_events (df : DataFrame) (addon : string) (ev : event) :
  In ev (trace (dispatch c w s df addon)) ->
  is_engine ev || is_chat ev = true ->
  ev = SmartDataframe (engine_positional df addon)
                      (engine_keywords (choose_llm c (llm_choice s))) \/
  ev = chat (engine_positional df addon)
            (engine_keywords (choose_llm c (llm_choice s))) (prompt s).
Proof.
  intros Hin Hev.
  destruct (String.eqb (prompt s) "") eqn:Hprompt.
  { rewrite dispatch_no_prompt in Hin by assumption. simpl in Hin.
    intuition (subst; try discriminate; auto). }
  destruct (String.eqb (llm_choice s) "OpenAI") eqn:Hllm.
  2:{ rewrite dispatch_other_backend in Hin by assumption. simpl in Hin.
      intuition (subst; try discriminate; auto). }
  destruct (dispatch_openai c w s df addon Hllm Hprompt)
    as [t [r [E Hdisp]]].
  rewrite E in Hin. cbn [trace fst] in Hin.
  assert (Hshown : In ev t -> False).
  { intros Ht. rewrite Forall_forall in Hdisp. specialize (Hdisp ev Ht).
    destruct ev; simpl in Hdisp, Hev; discriminate. }
  apply in_app_or in Hin. destruct Hin as [Hin|Hin].
  { simpl in Hin. intuition (subst; try discriminate; auto). }
  apply in_app_or in Hin. destruct Hin as [Hin|Hin].
  { simpl in Hin. intuition (subst; try discriminate; auto). }
  apply in_app_or in Hin. destruct Hin as [Hin|Hin].
  { exfalso. now apply Hshown. }
  simpl in Hin. intuition (subst; try discriminate; auto).
Qed.

Lemma upload_engine_events (ev : event) :
  In ev (trace (main c w s)) ->
  is_engine ev || is_chat ev = true ->
  exists df addon,
    ev = SmartDataframe (engine_positional df addon)
                        (engine_keywords (choose_llm c (llm_choice s))) \/
    ev = chat (engine_positional df addon)
              (engine_keywords (choose_llm c (llm_choice s))) (prompt s).
Proof.
  intros Hin Hev.
  destruct (dataset s) as [up|] eqn:Hup.
  2:{ rewrite main_upload_missing in Hin by assumption. simpl in Hin.
      intuition (subst; discriminate). }
  destruct (read_upload up) as [df|e] eqn:Hread.
  2:{ rewrite (main_upload_unreadable up e) in Hin by assumption.
      simpl in Hin. intuition (subst; discriminate). }
  rewrite (main_upload_flow c w s up df) in Hin by assumption.
  pose proof (shown_before_dispatch_quiet w s df) as Hquiet.
  rewrite forallb_forall in Hquiet.
  assert (Hbefore : In ev (shown_before_dispatch w s df) -> False).
  { intros Hb. specialize (Hquiet ev Hb).
    destruct ev; simpl in Hquiet, Hev; discriminate. }
  destruct (String.eqb (addon_of s) ""); cbn [trace fst] in Hin.
  - exfalso. now apply Hbefore.
  - apply in_app_or in Hin. destruct Hin as [Hin|Hin].
    + exfalso. now apply Hbefore.
    + exists df, (addon_of s). now apply dispatch_engine_events.
Qed.

End UploadFacts.

Lemma existsb_none {A} (p : A -> bool) (l : list A) :
(forall x, In x l -> p x = false) -> existsb p l = false.
Proof.
induction l as [|x l IH]; intros H; simpl; [reflexivity|].
rewrite (H x) by now left. apply IH. intros y Hy. apply H. now right.
Qed.

Lemma shown_before_dispatch_none (w : world) (s : session) (df : DataFrame)
    (p : event -> bool) :
(forall ev, p ev = true ->
            (is_error ev || is_chat ev || is_engine ev
             || is_backend_choice ev || is_prompt_entry ev) = true) ->
existsb p (shown_before_dispatch w s df) = false.
Proof.
intros Hp. apply existsb_none. intros ev Hin.
pose proof (shown_before_dispatch_quiet w s df) as Hquiet.
rewrite forallb_forall in Hquiet. specialize (Hquiet ev Hin).
destruct (p ev) eqn:E; [|reflexivity].
rewrite (Hp ev E) in Hquiet. discriminate.
Qed.

(* ================================================================= *)
(** ** The query dispatcher and the flows of [main] *)

Section FlowClaims.

Variable c : config.
Variable w : world.
Variable s : session.

(** C4, at the inputs where the code departs from it.  In the upload
    flow with a backend other than OpenAI and a prompt, the [with]
    statement of line 100 is entered on [None]: the run ends with that
    exception and [chat] was never called. *)
Theorem other_backend_not_forwarded (up : upload) (df : DataFrame) :
  String.prefix "Load from local drive" (task s) = true ->
  dataset s = Some up ->
  read_upload up = Ok df ->
  addon_of s <> "" ->
  llm_choice s = "Google Gemini" ->
  prompt s <> "" ->
  ending (main c w s) = Raised NotAContextManager /\
  existsb is_chat (trace (main c w s)) = false.
Proof.
  intros Htask Hup Hread Haddon Hllm Hprompt.
  apply String.eqb_neq in Haddon, Hprompt.
  assert (Hllm' : String.eqb (llm_choice s) "OpenAI" = false)
    by now rewrite Hllm.
  rewrite (main_upload_flow c w s up df) by assumption.
  rewrite Haddon, dispatch_other_backend by assumption.
  split; [reflexivity|]. cbn [trace fst].
  rewrite existsb_app, shown_before_dispatch_none; [reflexivity|].
  intros ev Hev. rewrite Hev. now rewrite !orb_true_r.
Qed.

(** C5, as the code has it.  In the upload flow every construction of
    the engine and every call of [chat] carries the arguments of lines
    93 to 95: the keyword [config] holds the chosen backend, the
    non-conversational mode and [OutputParser] as response parser, and
    no entry [enable_cache]; the dictionary with [enable_cache] set to
    false is the second positional argument. *)
Theorem engine_configuration (ev : event) :
  String.prefix "Load from local drive" (task s) = true ->
  In ev (trace (main c w s)) ->
  is_engine ev || is_chat ev = true ->
  exists positional keywords,
    (ev = SmartDataframe positional keywords \/
     ev = chat positional keywords (prompt s)) /\
    configured keywords "llm" = Some (VLLM (choose_llm c (llm_choice s))) /\
    configured keywords "conversational" = Some (VBool false) /\
    configured keywords "response_parser" = Some (VClass "OutputParser") /\
    configured keywords "enable_cache" = None /\
    nth_error positional 1 = Some (VDict [("enable_cache", VBool false)]).
Proof.
  intros Htask Hin Hev.
  destruct (upload_engine_events c w s Htask ev Hin Hev)
    as [df [addon Hshape]].
  exists (engine_positional df addon),
         (engine_keywords (choose_llm c (llm_choice s))).
  split; [exact Hshape|]. repeat split; reflexivity.
Qed.

(** C7, at the inputs where the code departs from it.  In the storage
    flow with a bucket and an object named, when the storage client
    raises [e] the exception leaves [main]: the run ends with [e]
    uncaught after the two inputs, and no [st.error] call was made. *)
Theorem storage_failure_escapes (e : exn) :
  task s = "Load from Google Storage" ->
  bucket_name s <> "" ->
  blob_name s <> "" ->
  gcs w (projectid c) (bucket_name s) (blob_name s) = Err e ->
  main c w s
  = (trace setup ++ trace (get_tasks s)
       ++ [st_text_input "Provide your Google Cloud Storage bucket name";
           st_text_input "Provide the blob/object name"],
     Raised e) /\
  existsb is_error (trace (main c w s)) = false.
Proof.
  intros Htask Hbucket Hblob Hgcs.
  apply String.eqb_neq in Hbucket, Hblob.
  assert (E : main c w s
              = (trace setup ++ trace (get_tasks s)
                   ++ [st_text_input
                         "Provide your Google Cloud Storage bucket name";
                       st_text_input "Provide the blob/object name"],
                 Raised e)).
  { unfold main. run_script. rewrite Htask.
    change (String.prefix "Load from local drive" "Load from Google Storage")
      with false.
    change (String.eqb "Load from Google Storage" "Load from Google Storage")
      with true.
    cbv iota. unfold storage_flow. run_script.
    rewrite Hbucket, Hblob. run_script.
    unfold write_read. rewrite Hgcs. reflexivity. }
  split; [exact E|]. rewrite E. reflexivity.
Qed.

(** C9, at the inputs where the code departs from it.  In the upload
    flow, for a file that was read: with "No" the backend is selected
    and the engine is built with the string "None" as field
    descriptions, but with a prompt and the Google Gemini backend the
    run ends at line 100, entering [None], and [chat] is never called,
    so the dispatch does not proceed; with "Yes" and an empty
    description the run ends at line 90, with no backend selection, no
    prompt entry, no engine and no call of [chat]. *)
Theorem column_descriptor_gate (up : upload) (df : DataFrame) :
  String.prefix "Load from local drive" (task s) = true ->
  dataset s = Some up ->
  read_upload up = Ok df ->
  (col_desc s = "No" ->
   (exists rest,
      trace (main c w s)
      = shown_before_dispatch w s df
          ++ shown_by_selection c s df "None" ++ rest) /\
   nth_error (shown_by_selection c s df "None") 2
   = Some (SmartDataframe
             [VPandasConnector [("original_df", df)] "None";
              VDict [("enable_cache", VBool false)]]
             (engine_keywords (choose_llm c (llm_choice s)))) /\
   (prompt s <> "" ->
    llm_choice s = "Google Gemini" ->
    main c w s
    = (shown_before_dispatch w s df
         ++ shown_by_selection c s df "None"
         ++ [st_write [VStr "Response"]],
       Raised NotAContextManager) /\
    existsb is_chat (trace (main c w s)) = false)) /\
  (col_desc s = "Yes" ->
   addon_text s = "" ->
   main c w s = (shown_before_dispatch w s df, Done tt) /\
   existsb (fun ev => is_backend_choice ev || is_prompt_entry ev
                      || is_engine ev || is_chat ev)
           (trace (main c w s)) = false).
Proof.
  intros Htask Hup Hread.
  pose proof (main_upload_flow c w s up df Htask Hup Hread) as Hmain.
  split.
  - intros Hno.
    assert (Haddon : addon_of s = "None")
      by (unfold addon_of; now rewrite Hno).
    rewrite Haddon in Hmain. change (String.eqb "None" "") with false in Hmain.
    rewrite Hmain. cbn [trace fst]. split; [|split; [reflexivity|]].
    + destruct (String.eqb (prompt s) "") eqn:Hprompt.
      { rewrite dispatch_no_prompt by assumption.
        exists []. now rewrite app_nil_r. }
      destruct (String.eqb (llm_choice s) "OpenAI") eqn:Hllm.
      2:{ rewrite dispatch_other_backend by assumption. rest_of_trace. }
      destruct (dispatch_openai c w s df "None" Hllm Hprompt)
        as [t [r [E _]]].
      rewrite E. rest_of_trace.
    + intros Hprompt Hllm. apply String.eqb_neq in Hprompt.
      assert (Hllm' : String.eqb (llm_choice s) "OpenAI" = false)
        by now rewrite Hllm.
      rewrite dispatch_other_backend by assumption.
      cbn [trace ending fst snd]. split.
      * reflexivity.
      * rewrite existsb_app, shown_before_dispatch_none; [reflexivity|].
        intros ev Hev. rewrite Hev. now rewrite !orb_true_r.
  - intros Hyes Hempty.
    assert (Haddon : addon_of s = "")
      by (unfold addon_of; now rewrite Hyes, String.eqb_refl).
    rewrite Haddon in Hmain. change (String.eqb "" "") with true in Hmain.
    split; [exact Hmain|]. rewrite Hmain. cbn [trace fst].
    apply shown_before_dispatch_none. intros ev Hev.
    destruct (is_backend_choice ev), (is_prompt_entry ev),
      (is_engine ev), (is_chat ev), (is_error ev); simpl in *;
      congruence.
Qed.

End FlowClaims.

(* ================================================================= *)
(** ** Runs on the sample inputs *)

(** With Google Gemini selected the engine is never called, although it
  would answer. *)
Lemma other_backend_not_forwarded_gemini :
ending (main Samples.env Samples.answering
             (Samples.ask "No" "" "Google Gemini"))
= Raised NotAContextManager /\
existsb is_chat
        (trace (main Samples.env Samples.answering
                     (Samples.ask "No" "" "Google Gemini"))) = false.
Proof.
apply (other_backend_not_forwarded Samples.env Samples.answering
         (Samples.ask "No" "" "Google Gemini")
         Samples.people_upload Samples.people_frame).
- reflexivity.
- reflexivity.
- reflexivity.
- vm_compute. discriminate.
- reflexivity.
- vm_compute. discriminate.
Defined.

(** The call of [chat] in a run with OpenAI. *)
Lemma engine_configuration_openai :
exists positional keywords,
  (chat (engine_positional Samples.people_frame "None")
        (engine_keywords (OpenAI (Some "sk-test")))
        "How many rows are there?"
   = SmartDataframe positional keywords \/
   chat (engine_positional Samples.people_frame "None")
        (engine_keywords (OpenAI (Some "sk-test")))
        "How many rows are there?"
   = chat positional keywords "How many rows are there?") /\
  configured keywords "llm" = Some (VLLM (OpenAI (Some "sk-test"))) /\
  configured keywords "conversational" = Some (VBool false) /\
  configured keywords "response_parser" = Some (VClass "OutputParser") /\
  configured keywords "enable_cache" = None /\
  nth_error positional 1 = Some (VDict [("enable_cache", VBool false)]).
Proof.
apply (engine_configuration Samples.env Samples.answering
         (Samples.ask "No" "" "OpenAI")
         (chat (engine_positional Samples.people_frame "None")
               (engine_keywords (OpenAI (Some "sk-test")))
               "How many rows are there?")).
- reflexivity.
- vm_compute. do 16 right. left. reflexivity.
- reflexivity.
Defined.

(** A bucket that does not exist. *)
Lemma storage_failure_escapes_no_bucket :
main Samples.env Samples.answering (Samples.fetch "nowhere" "people.csv")
= (trace setup
     ++ trace (get_tasks (Samples.fetch "nowhere" "people.csv"))
     ++ [st_text_input "Provide your Google Cloud Storage bucket name";
         st_text_input "Provide the blob/object name"],
   Raised (Samples.not_found "The specified bucket does not exist.")) /\
existsb is_error
        (trace (main Samples.env Samples.answering
                     (Samples.fetch "nowhere" "people.csv"))) = false.
Proof.
apply (storage_failure_escapes Samples.env Samples.answering
         (Samples.fetch "nowhere" "people.csv")).
- reflexivity.
- vm_compute. discriminate.
- vm_compute. discriminate.
- reflexivity.
Defined.

(** "No" builds the engine with the description "None", and with
    Google Gemini the run ends at line 100; "Yes" with an empty
    description stops short of the backend selection. *)
Lemma column_descriptor_gate_runs :
  main Samples.env Samples.answering (Samples.ask "No" "" "Google Gemini")
  = (shown_before_dispatch Samples.answering
                           (Samples.ask "No" "" "Google Gemini")
                           Samples.people_frame
       ++ shown_by_selection Samples.env (Samples.ask "No" "" "Google Gemini")
                             Samples.people_frame "None"
       ++ [st_write [VStr "Response"]],
     Raised NotAContextManager) /\
  main Samples.env Samples.answering (Samples.ask "Yes" "" "OpenAI")
  = (shown_before_dispatch Samples.answering (Samples.ask "Yes" "" "OpenAI")
                           Samples.people_frame,
     Done tt).
Proof.
  split.
  - apply (column_descriptor_gate Samples.env Samples.answering
             (Samples.ask "No" "" "Google Gemini")
             Samples.people_upload Samples.people_frame);
      try reflexivity.
    vm_compute. discriminate.
  - apply (column_descriptor_gate Samples.env Samples.answering
             (Samples.ask "Yes" "" "OpenAI")
             Samples.people_upload Samples.people_frame);
      reflexivity.
Defined.

(** With OpenAI selected the request reaches the engine: its result is
  rendered by the parser, what [chat] returns is written, and the
  usage of the call is shown. *)
Example upload_run_openai :
main Samples.env Samples.answering (Samples.ask "No" "" "OpenAI")
= (shown_before_dispatch Samples.answering (Samples.ask "No" "" "OpenAI")
                         Samples.people_frame
     ++ shown_by_selection Samples.env (Samples.ask "No" "" "OpenAI")
                           Samples.people_frame "None"
     ++ [st_write [VStr "Response"];
         get_openai_callback;
         chat (engine_positional Samples.people_frame "None")
              (engine_keywords (OpenAI (Some "sk-test")))
              "How many rows are there?";
         st_write [VStr "42"];
         st_write [VNone];
         st_divider;
         st_write [VStr "🧞‍♂️ Under the hood, the code that was executed:"];
         st_code (VStr "result = {'type': 'string', 'value': '42'}");
         st_divider;
         st_write [VStr "💰 Tokens used and your cost:"];
         st_write [show (metered fresh_handler Samples.answer)]],
   Done tt).
Proof. reflexivity. Qed.

(** A file that exists loads and is previewed. *)
Example storage_run_people :
main Samples.env Samples.answering (Samples.fetch "datasets" "people.csv")
= (trace setup
     ++ trace (get_tasks (Samples.fetch "datasets" "people.csv"))
     ++ [st_text_input "Provide your Google Cloud Storage bucket name";
         st_text_input "Provide the blob/object name";
         st_write [VStr "Data Preview:"];
         st_dataframe (VFrame Samples.people_frame)],
   Done tt).
Proof. reflexivity. Qed.

(** An upload that cannot be read is reported and the run is halted:
  the handler of lines 76 to 81. *)
Example upload_run_unreadable :
main Samples.env Samples.answering
     {| task := "Load from local drive, 200MB+";
        dataset := Some {| name := "notes.xlsx";
                           read_csv := Ok Samples.people_frame;
                           read_excel := Err (ExternalError "ValueError"
                                                "File is not a zip file") |};
        col_desc := "No"; addon_text := ""; llm_choice := "OpenAI";
        prompt := "How many rows are there?";
        bucket_name := ""; blob_name := "";
        stock_symbol := ""; yahoo_prompt := "" |}
= (trace setup
     ++ [st_sidebar_header "Select a task" "rainbow";
         st_sidebar_radio "Choose one:"
           ["Load from local drive, <200MB";
            "Load from local drive, 200MB+";
            "Load from Google Storage";
            "Yahoo Finance"];
         st_file_uploader "Upload your CSV or XLSX file" ["csv"; "xlsx"];
         st_error "Error reading file: File is not a zip file"],
   Stopped).
Proof. reflexivity. Qed.

(* ================================================================= *)
(** ** Further properties of the cost estimator *)

Section CostFacts.

Variable encode : string -> list Z.
Variable astype_str : cell -> string.

Lemma sum_nonneg (xs : list Z) : Forall (fun x => 0 <= x) xs -> 0 <= sum xs.
Proof.
  induction 1 as [|x xs Hx _ IH]; [reflexivity|]. rewrite sum_cons. lia.
Qed.

(** X1.  Whatever the tokenizer and the table, the token count that
    [calculate_cost] reports is not negative, and neither is the cost. *)
Theorem estimate_nonnegative (df : DataFrame) :
  0 <= Cost.total_tokens encode astype_str df /\
  (0 <= Cost.cost_of (Cost.total_tokens encode astype_str df))%Q.
Proof.
  assert (H : 0 <= Cost.total_tokens encode astype_str df).
  { unfold Cost.total_tokens. apply sum_nonneg. apply Forall_map.
    apply Forall_forall. intros row _. apply row_tokens_nonneg. }
  split; [exact H|].
  unfold Cost.cost_of, Qdiv.
  apply Qmult_le_0_compat; [|discriminate].
  apply Qmult_le_0_compat; [|discriminate].
  change (0%Q) with (inject_Z 0). now rewrite <- Zle_Qle.
Qed.

Lemma sum_permutation (xs ys : list Z) :
  Permutation xs ys -> sum xs = sum ys.
Proof.
  induction 1 as [|x xs ys _ IH|x y xs|xs ys zs _ IH1 _ IH2].
  - reflexivity.
  - now rewrite !sum_cons, IH.
  - rewrite !sum_cons. lia.
  - now rewrite IH1.
Qed.

(** X20.  The estimate does not depend on the order of the rows: two
    tables whose rows are the same up to their order have the same token
    count, hence the same cost, whatever their column names. *)
Theorem estimate_row_order (df1 df2 : DataFrame) :
  Permutation (rows df1) (rows df2) ->
  Cost.total_tokens encode astype_str df1
  = Cost.total_tokens encode astype_str df2 /\
  Cost.cost_of (Cost.total_tokens encode astype_str df1)
  = Cost.cost_of (Cost.total_tokens encode astype_str df2).
Proof.
  intros Hperm.
  assert (H : Cost.total_tokens encode astype_str df1
              = Cost.total_tokens encode astype_str df2).
  { unfold Cost.total_tokens. apply sum_permutation.
    now apply Permutation_map. }
  split; [exact H|]. now rewrite H.
Qed.

End CostFacts.

Lemma estimate_row_order_people :
  Cost.total_tokens Samples.one_per_char Samples.cell_text Samples.people_frame
  = Cost.total_tokens Samples.one_per_char Samples.cell_text
      {| columns := ["name"; "id"];
         rows := [[CStr "2"; CStr "b"]; [CStr "1"; CStr "a"]] |} /\
  Cost.cost_of
    (Cost.total_tokens Samples.one_per_char Samples.cell_text
                       Samples.people_frame)
  = Cost.cost_of
      (Cost.total_tokens Samples.one_per_char Samples.cell_text
         {| columns := ["name"; "id"];
            rows := [[CStr "2"; CStr "b"]; [CStr "1"; CStr "a"]] |}).
Proof.
  apply estimate_row_order. apply perm_swap.
Defined.

(* ================================================================= *)
(** ** Further properties of the cloud-blob loader *)

Section StoreFacts.

Local Open Scope nat_scope.

Lemma get_setitem {V} (d : dict V) (k k' : string) (v : V) :
  get (setitem d k v) k' = if String.eqb k' k then Some v else get d k'.
Proof.
  induction d as [|[k0 v0] d IH]; simpl.
  - reflexivity.
  - destruct (String.eqb_spec k k0) as [->|Hne]; simpl.
    + destruct (String.eqb k' k0); reflexivity.
    + rewrite IH. destruct (String.eqb_spec k' k0) as [->|Hne'].
      * destruct (String.eqb_spec k0 k); congruence.
      * reflexivity.
Qed.

Lemma keys_setitem {V} (d : dict V) (k : string) (v : V) :
  keys (setitem d k v) = add_key (keys d) k.
Proof.
  unfold add_key. induction d as [|[k0 v0] d IH]; simpl; [reflexivity|].
  destruct (String.eqb k k0); simpl; [reflexivity|].
  unfold keys in *. rewrite IH.
  destruct (existsb (String.eqb k) (map fst d)); reflexivity.
Qed.

Lemma keys_store (l : list (string * string)) :
  forall acc, keys (fold_left store l acc)
              = fold_left add_key (map fst l) (keys acc).
Proof.
  induction l as [|[k v] l IH]; intros acc; simpl; [reflexivity|].
  rewrite IH. unfold store. simpl. now rewrite keys_setitem.
Qed.

Lemma fst_combine_wide (h r : list string) :
  length h <= length r -> map fst (combine h r) = h.
Proof.
  revert r. induction h as [|x h IH]; intros [|y r] H; simpl in *;
    try lia; auto.
  rewrite IH; [reflexivity|lia].
Qed.

Lemma get_store (h : list string) :
  forall (r : list string) (acc : dict cell) (k : string),
    get (fold_left store (combine h r) acc) k
    = match last_field k h r with
      | Some v => Some (CStr v)
      | None => get acc k
      end.
Proof.
  induction h as [|x h IH]; intros [|y r] acc k; simpl; try reflexivity.
  rewrite IH. destruct (last_field k h r); [reflexivity|].
  unfold store. simpl. rewrite get_setitem.
  destruct (String.eqb k x); reflexivity.
Qed.

Lemma last_field_found (k : string) (h : list string) :
  forall r, In k h -> length h <= length r -> last_field k h r <> None.
Proof.
  induction h as [|x h IH]; intros [|y r] Hin Hlen; simpl in *;
    try contradiction; try lia.
  destruct (last_field k h r) eqn:E; [discriminate|].
  destruct Hin as [->|Hin].
  - rewrite String.eqb_refl. discriminate.
  - exfalso. apply (IH r); [assumption|lia|assumption].
Qed.

Lemma add_key_NoDup (cols : list string) (k : string) :
  NoDup cols -> NoDup (add_key cols k).
Proof.
  intros Hnd. unfold add_key.
  destruct (existsb (String.eqb k) cols) eqn:E; [assumption|].
  apply NoDup_app; [assumption|repeat constructor; intros []|].
  intros x Hx [Hk|[]]. subst x.
  assert (existsb (String.eqb k) cols = true)
    by (apply existsb_exists; exists k; split;
        [assumption|apply String.eqb_refl]).
  congruence.
Qed.

Lemma add_keys_NoDup (ks : list string) :
  forall cols, NoDup cols -> NoDup (fold_left add_key ks cols).
Proof.
  induction ks as [|k ks IH]; intros cols Hnd; simpl; [assumption|].
  apply IH. now apply add_key_NoDup.
Qed.

Lemma add_keys_range (ks : list string) :
  forall cols k, In k (fold_left add_key ks cols) <-> In k cols \/ In k ks.
Proof.
  induction ks as [|x ks IH]; intros cols k; simpl; [tauto|].
  rewrite IH. unfold add_key.
  destruct (existsb (String.eqb x) cols) eqn:E.
  - apply existsb_exists in E. destruct E as [x' [Hx' E]].
    apply String.eqb_eq in E. subst x'.
    split; [tauto|]. intros [H|[<-|H]]; tauto.
  - rewrite in_app_iff. simpl. tauto.
Qed.

Lemma distinct_fields_NoDup (header : list string) :
  NoDup (distinct_fields header).
Proof. apply add_keys_NoDup. constructor. Qed.

Lemma distinct_fields_range (header : list string) (k : string) :
  In k (distinct_fields header) <-> In k header.
Proof. unfold distinct_fields. rewrite add_keys_range. simpl. tauto. Qed.

(** The table of a file whose rows are all at least as wide as the
    header, when there is at least one row. *)
Lemma frame_of_lines_wide (header : list string) (data : list (list string)) :
  data <> [] ->
  Forall (fun row => length header <= length row) data ->
  frame_of_lines (header :: data)
  = Ok {| columns := distinct_fields header;
          rows := map (fun row => map (field_cell header row)
                                      (distinct_fields header)) data |}.
Proof.
  intros Hne Hall. simpl.
  rewrite (comprehension_ok _
             (fun row => fold_left store (combine header row) [])).
  2:{ eapply Forall_impl; [|exact Hall].
      intros row Hrow. now apply row_record_long. }
  simpl. unfold DataFrame_of_records.
  rewrite (union_keys_uniform (distinct_fields header)).
  - do 2 f_equal. rewrite map_map. apply map_ext. intros row.
    apply map_ext. intros k. unfold cell_of, field_cell.
    rewrite get_store. destruct (last_field k header row); reflexivity.
  - apply distinct_fields_NoDup.
  - destruct data; [congruence|discriminate].
  - apply Forall_map. eapply Forall_impl; [|exact Hall].
    intros row Hrow. simpl. rewrite keys_store.
    now rewrite fst_combine_wide.
Qed.

Lemma wide_or_short (header : list string) (data : list (list string)) :
  Forall (fun row => length header <= length row) data \/
  Exists (fun row => length row < length header) data.
Proof.
  induction data as [|row data [IH|IH]]; [left; constructor| |].
  - destruct (Nat.le_gt_cases (length header) (length row)).
    + left. now constructor.
    + right. now left.
  - right. now right.
Qed.

End StoreFacts.

Section LoaderFacts.

Local Open Scope nat_scope.

Variable gcs : storage.
Variables bucket_name blob_name : string.
Variable projectid : option string.

(** X3.  The outcomes of [write_read].  An exception of the storage
    client comes out unchanged; an object without any line fails with
    [StopIteration], raised by [next(reader)]; and an object with a
    header loads if and only if every data row has at least as many
    fields as the header. *)
Theorem write_read_outcomes :
  (forall e,
      gcs projectid bucket_name blob_name = Err e ->
      write_read gcs bucket_name blob_name projectid = Err e) /\
  (gcs projectid bucket_name blob_name = Ok [] ->
   write_read gcs bucket_name blob_name projectid = Err StopIteration) /\
  (forall header data,
      gcs projectid bucket_name blob_name = Ok (header :: data) ->
      ((exists df, write_read gcs bucket_name blob_name projectid = Ok df)
       <-> Forall (fun row => length header <= length row) data)).
Proof.
  unfold write_read. split; [|split].
  - intros e He. now rewrite He.
  - intros He. now rewrite He.
  - intros header data He. rewrite He.
    change (rbind (Ok (header :: data)) frame_of_lines)
      with (frame_of_lines (header :: data)).
    split.
    + intros [df Hdf].
      destruct (wide_or_short header data) as [Hall|Hshort]; [exact Hall|].
      simpl in Hdf. rewrite (comprehension_short _ _ Hshort) in Hdf.
      discriminate.
    + intros Hall. simpl.
      rewrite (comprehension_ok _
                 (fun row => fold_left store (combine header row) [])).
      * simpl. eauto.
      * eapply Forall_impl; [|exact Hall].
        intros row Hrow. now apply row_record_long.
Qed.

(** X4.  What every loaded table satisfies, whatever the header: it has
    one row per data row of the file, every row has one cell per
    column, no column name occurs twice, every column name is a header
    field, and every cell is a text cell (no value is missing). *)
Theorem write_read_table_invariants (header : list string)
        (data : list (list string)) (df : DataFrame) :
  gcs projectid bucket_name blob_name = Ok (header :: data) ->
  write_read gcs bucket_name blob_name projectid = Ok df ->
  length (rows df) = length data /\
  rectangular df /\
  NoDup (columns df) /\
  incl (columns df) header /\
  Forall (fun row => forallb is_text row = true) (rows df).
Proof.
  intros He Hdf. unfold write_read in Hdf. rewrite He in Hdf.
  change (rbind (Ok (header :: data)) frame_of_lines)
    with (frame_of_lines (header :: data)) in Hdf.
  destruct data as [|row0 data].
  { inversion Hdf; subst. unfold rectangular. simpl.
    repeat split; try constructor. intros k []. }
  remember (row0 :: data) as rs eqn:Hrs.
  assert (Hne : rs <> []) by (subst rs; discriminate).
  clear Hrs He row0 data.
  destruct (wide_or_short header rs) as [Hall|Hshort].
  2:{ simpl in Hdf. rewrite (comprehension_short _ _ Hshort) in Hdf.
      discriminate. }
  rewrite frame_of_lines_wide in Hdf by assumption.
  inversion Hdf; subst; clear Hdf. unfold rectangular. cbn [rows columns].
  split; [now rewrite length_map|]. split; [|split; [|split]].
  - apply Forall_map. apply Forall_forall. intros row _.
    now rewrite length_map.
  - apply distinct_fields_NoDup.
  - intros k Hk. now apply distinct_fields_range.
  - apply Forall_map. eapply Forall_impl; [|exact Hall].
    intros row Hrow. apply forallb_forall. intros c Hc.
    apply in_map_iff in Hc. destruct Hc as [k [<- Hk]].
    unfold field_cell.
    destruct (last_field k header row) eqn:E; [reflexivity|].
    exfalso. apply (last_field_found k header row); try assumption.
    now apply distinct_fields_range.
Qed.

(** X5.  A header that repeats a field.  For a file with at least one
    data row, all rows at least as wide as the header, the columns are
    the header fields, each kept at its first occurrence, and under a
    column each row holds the field at the last position where the
    header carries that name. *)
Theorem write_read_repeated_fields (header : list string)
        (data : list (list string)) :
  gcs projectid bucket_name blob_name = Ok (header :: data) ->
  data <> [] ->
  Forall (fun row => length header <= length row) data ->
  write_read gcs bucket_name blob_name projectid
  = Ok {| columns := distinct_fields header;
          rows := map (fun row => map (field_cell header row)
                                      (distinct_fields header)) data |}.
Proof.
  intros He Hne Hall. unfold write_read. rewrite He.
  change (rbind (Ok (header :: data)) frame_of_lines)
    with (frame_of_lines (header :: data)).
  now apply frame_of_lines_wide.
Qed.

End LoaderFacts.

Lemma write_read_outcomes_shelf :
  write_read MoreSamples.shelf "attic" "ids.csv" None
  = Err (Samples.not_found "The specified bucket does not exist.") /\
  write_read MoreSamples.shelf "shelf" "empty.csv" None = Err StopIteration /\
  (exists df, write_read MoreSamples.shelf "shelf" "ids.csv" None = Ok df).
Proof.
  split; [|split].
  - apply (write_read_outcomes MoreSamples.shelf "attic" "ids.csv" None).
    reflexivity.
  - apply (write_read_outcomes MoreSamples.shelf "shelf" "empty.csv" None).
    reflexivity.
  - apply (write_read_outcomes MoreSamples.shelf "shelf" "ids.csv" None)
      with (header := ["id"; "name"; "id"])
           (data := [["1"; "a"; "2"]; ["3"; "b"; "4"; "extra"]]).
    + reflexivity.
    + repeat constructor.
Defined.

Lemma write_read_table_invariants_ids :
  length (rows {| columns := ["id"; "name"];
                  rows := [[CStr "2"; CStr "a"]; [CStr "4"; CStr "b"]] |})
  = 2%nat /\
  rectangular {| columns := ["id"; "name"];
                 rows := [[CStr "2"; CStr "a"]; [CStr "4"; CStr "b"]] |} /\
  NoDup ["id"; "name"] /\
  incl ["id"; "name"] ["id"; "name"; "id"] /\
  Forall (fun row => forallb is_text row = true)
         [[CStr "2"; CStr "a"]; [CStr "4"; CStr "b"]].
Proof.
  apply (write_read_table_invariants MoreSamples.shelf "shelf" "ids.csv" None
           ["id"; "name"; "id"]
           [["1"; "a"; "2"]; ["3"; "b"; "4"; "extra"]]
           {| columns := ["id"; "name"];
              rows := [[CStr "2"; CStr "a"]; [CStr "4"; CStr "b"]] |}).
  - reflexivity.
  - reflexivity.
Defined.

Lemma write_read_repeated_fields_ids :
  write_read MoreSamples.shelf "shelf" "ids.csv" None
  = Ok {| columns := ["id"; "name"];
          rows := [[CStr "2"; CStr "a"]; [CStr "4"; CStr "b"]] |}.
Proof.
  apply (write_read_repeated_fields MoreSamples.shelf "shelf" "ids.csv" None
           ["id"; "name"; "id"]
           [["1"; "a"; "2"]; ["3"; "b"; "4"; "extra"]]).
  - reflexivity.
  - discriminate.
  - repeat constructor.
Defined.

(* ================================================================= *)
(** ** Further properties of the response renderer *)

(** X6.  A result without the entry [type] makes [parse] raise
    [KeyError('type')]; one with a tag but without the entry [value]
    makes it raise [KeyError('value')].  In both cases nothing has been
    displayed. *)
Theorem parse_missing_key (result : dict value) :
  (get result "type" = None ->
   OutputParser.parse result = ([], Raised (KeyError "type"))) /\
  (forall ty,
      get result "type" = Some ty ->
      get result "value" = None ->
      OutputParser.parse result = ([], Raised (KeyError "value"))).
Proof.
  unfold OutputParser.parse, getitem. split.
  - intros Hty. now rewrite Hty.
  - intros ty Hty Hv. rewrite Hty, Hv. simpl.
    destruct (OutputParser.eq_str ty "dataframe"); [reflexivity|].
    destruct (OutputParser.eq_str ty "plot"); reflexivity.
Qed.

Lemma parse_missing_key_samples :
  OutputParser.parse [("value", VStr "42")] = ([], Raised (KeyError "type")) /\
  OutputParser.parse [("type", VStr "plot")] = ([], Raised (KeyError "value")).
Proof.
  split.
  - apply (parse_missing_key [("value", VStr "42")]). reflexivity.
  - apply (parse_missing_key [("type", VStr "plot")]) with (ty := VStr "plot");
      reflexivity.
Defined.

Lemma parse_single_call_of (result : dict value) :
  trace (OutputParser.parse result) = view_of result /\
  ending (OutputParser.parse result)
  = match get result "type", get result "value" with
    | Some _, Some _ => Done tt
    | Some _, None => Raised (KeyError "value")
    | None, _ => Raised (KeyError "type")
    end.
Proof.
  unfold OutputParser.parse, view_of, getitem, OutputParser.variant_of.
  destruct (get result "type") as [ty|]; simpl; [|split; reflexivity].
  destruct (get result "value") as [v|];
    destruct (OutputParser.eq_str ty "dataframe");
    try destruct (OutputParser.eq_str ty "plot"); split; reflexivity.
Qed.

(** X7.  On any dictionary [parse] makes at most one call, the display
    call of the result's variant, and it makes that call exactly when it
    ends normally, which is when both entries are present.  It never
    halts the script. *)
Theorem parse_single_call (result : dict value) :
  trace (OutputParser.parse result) = view_of result /\
  (length (trace (OutputParser.parse result)) <= 1)%nat /\
  (ending (OutputParser.parse result) = Done tt
   <-> exists ty v, OutputParser.well_formed result ty v) /\
  (ending (OutputParser.parse result) = Done tt
   <-> length (trace (OutputParser.parse result)) = 1%nat) /\
  ending (OutputParser.parse result) <> Stopped.
Proof.
  unfold OutputParser.parse, OutputParser.well_formed, view_of, getitem,
    OutputParser.variant_of.
  destruct (get result "type") as [ty|]; simpl.
  2:{ repeat split; try lia; try discriminate.
      intros [ty [v [H _]]]. discriminate. }
  destruct (get result "value") as [v|];
    destruct (OutputParser.eq_str ty "dataframe");
    try destruct (OutputParser.eq_str ty "plot"); simpl;
    repeat split; try lia; try discriminate; eauto;
    intros [ty' [v' [_ H]]]; discriminate.
Qed.

(* ================================================================= *)
(** ** The choice of the reader for an upload *)

Lemma lower_ascii_dot (a : ascii) :
  Ascii.eqb (lower_ascii a) "."%char = Ascii.eqb a "."%char.
Proof.
  destruct a as [[] [] [] [] [] [] [] []]; vm_compute; reflexivity.
Qed.

Lemma lower_ascii_idem (a : ascii) :
  lower_ascii (lower_ascii a) = lower_ascii a.
Proof.
  destruct a as [[] [] [] [] [] [] [] []]; vm_compute; reflexivity.
Qed.

Lemma lower_idem (s : string) : lower (lower s) = lower s.
Proof.
  induction s as [|a s IH]; simpl; [reflexivity|].
  now rewrite lower_ascii_idem, IH.
Qed.

Lemma split_nonempty (c : ascii) (s : string) : split c s <> [].
Proof.
  destruct s as [|a s]; simpl; [discriminate|].
  destruct (Ascii.eqb a c); [discriminate|].
  destruct (split c s); discriminate.
Qed.

Lemma split_lower (s : string) :
  split "."%char (lower s) = map lower (split "."%char s).
Proof.
  induction s as [|a s IH]; simpl; [reflexivity|].
  rewrite lower_ascii_dot, IH.
  destruct (Ascii.eqb a "."%char); simpl; [reflexivity|].
  destruct (split "."%char s); reflexivity.
Qed.

Lemma last_map_lower (l : list string) :
  last (map lower l) EmptyString = lower (last l EmptyString).
Proof.
  induction l as [|x [|y l] IH]; simpl in *; auto.
Qed.

Lemma file_extension_lower (filename : string) :
  file_extension (lower filename) = file_extension filename.
Proof.
  unfold file_extension.
  now rewrite split_lower, last_map_lower, lower_idem.
Qed.

Lemma split_no_dot (s : string) :
  has_dot s = false -> split "."%char s = [s].
Proof.
  induction s as [|a s IH]; simpl; [reflexivity|].
  destruct (Ascii.eqb a "."%char); simpl; [discriminate|].
  intros H. now rewrite IH.
Qed.

Lemma split_at_dot (s1 s2 : string) :
  split "."%char (s1 ++ String "."%char s2)
  = split "."%char s1 ++ split "."%char s2.
Proof.
  induction s1 as [|a s1 IH]; simpl; [reflexivity|].
  destruct (Ascii.eqb a "."%char); simpl; [now rewrite IH|].
  rewrite IH. pose proof (split_nonempty "."%char s1) as Hne.
  destruct (split "."%char s1); [congruence|reflexivity].
Qed.

Lemma last_app_nonempty {A} (l1 l2 : list A) (d : A) :
  l2 <> [] -> last (l1 ++ l2) d = last l2 d.
Proof.
  intros Hne. induction l1 as [|x l1 IH]; [reflexivity|].
  simpl. destruct (l1 ++ l2) eqn:E; [|exact IH].
  apply app_eq_nil in E. destruct E. congruence.
Qed.

(** X8.  The reader of an upload is chosen by the part of the file name
    after its last dot, or by the whole name when it has no dot: the
    upload is read as CSV when that part, in lower case, is [csv], and
    as a workbook otherwise. *)
Theorem read_upload_by_suffix (up : upload) (stem ext : string) :
  has_dot ext = false ->
  name up = (stem ++ "." ++ ext)%string \/ name up = ext ->
  read_upload up
  = if String.eqb (lower ext) "csv" then read_csv up else read_excel up.
Proof.
  intros Hext Hname. unfold read_upload.
  replace (file_extension (name up)) with (lower ext); [reflexivity|].
  unfold file_extension. destruct Hname as [-> | ->].
  - change (stem ++ "." ++ ext)%string
      with (stem ++ String "."%char ext)%string.
    rewrite split_at_dot, last_app_nonempty by apply split_nonempty.
    now rewrite split_no_dot.
  - now rewrite split_no_dot.
Qed.

Lemma read_upload_by_suffix_samples :
  read_upload Samples.people_upload = Ok Samples.people_frame /\
  read_upload MoreSamples.workbook
  = Err (ExternalError "ValueError" "File is not a zip file").
Proof.
  split.
  - apply (read_upload_by_suffix Samples.people_upload "people" "CSV").
    + reflexivity.
    + left. reflexivity.
  - apply (read_upload_by_suffix MoreSamples.workbook "notes" "xlsx").
    + reflexivity.
    + left. reflexivity.
Defined.

(** X9.  The choice of the reader does not depend on the case of the
    letters of the file name: two uploads whose names agree up to
    letter case, and that read alike, are read by the same reader. *)
Theorem read_upload_ignores_case (up1 up2 : upload) :
  lower (name up1) = lower (name up2) ->
  read_csv up1 = read_csv up2 ->
  read_excel up1 = read_excel up2 ->
  read_upload up1 = read_upload up2.
Proof.
  intros Hname Hcsv Hexcel. unfold read_upload.
  rewrite <- (file_extension_lower (name up1)), Hname, file_extension_lower.
  now rewrite Hcsv, Hexcel.
Qed.

Lemma read_upload_ignores_case_people :
  read_upload Samples.people_upload
  = read_upload {| name := "People.Csv";
                   read_csv := read_csv Samples.people_upload;
                   read_excel := read_excel Samples.people_upload |}.
Proof.
  apply read_upload_ignores_case; reflexivity.
Defined.

(* ================================================================= *)
(** ** Further properties of the flows of [main] *)

Lemma parse_one_view_of (result : dict value) (ty v : value) :
  OutputParser.well_formed result ty v ->
  OutputParser.parse result
  = ([OutputParser.view (OutputParser.variant_of ty) v], Done tt).
Proof.
  intros Hres.
  destruct (parse_single_call_of result) as [Htrace Hend].
  destruct (OutputParser.parse result) as [t o]. simpl in *.
  unfold view_of in Htrace. destruct Hres as [Hty Hv].
  rewrite Hty, Hv in Htrace, Hend. now rewrite Htrace, Hend.
Qed.

Lemma render_from_views (results : list (dict value)) :
  forall t,
    Forall (fun res => exists ty v, OutputParser.well_formed res ty v)
           results ->
    fold_left (fun m res => m ;; OutputParser.parse res) results (t, Done tt)
    = (t ++ flat_map view_of results, Done tt).
Proof.
  induction results as [|res results IH]; intros t Hall; simpl.
  - now rewrite app_nil_r.
  - pose proof (Forall_inv Hall) as [ty [v Hres]].
    pose proof (Forall_inv_tail Hall) as Hrest.
    rewrite (parse_one_view_of res ty v Hres).
    unfold view_of. destruct Hres as [Hty Hv]. rewrite Hty, Hv.
    rewrite IH by assumption. now rewrite <- app_assoc.
Qed.

Lemma render_all_views (results : list (dict value)) :
  Forall (fun res => exists ty v, OutputParser.well_formed res ty v) results ->
  render_all results = (flat_map view_of results, Done tt).
Proof. intros Hall. exact (render_from_views results [] Hall). Qed.

Lemma dispatch_begins (c : config) (w : world) (s : session)
      (df : DataFrame) (addon : string) :
  exists rest,
    trace (dispatch c w s df addon) = shown_by_selection c s df addon ++ rest.
Proof.
  destruct (String.eqb (prompt s) "") eqn:Hprompt.
  { rewrite dispatch_no_prompt by assumption.
    exists []. now rewrite app_nil_r. }
  destruct (String.eqb (llm_choice s) "OpenAI") eqn:Hllm.
  2:{ rewrite dispatch_other_backend by assumption. rest_of_trace. }
  destruct (dispatch_openai c w s df addon Hllm Hprompt) as [t [r [E _]]].
  rewrite E. rest_of_trace.
Qed.

Section StorageFacts.

Variable c : config.
Variable w : world.
Variable s : session.

Hypothesis Htask : task s = "Load from Google Storage".

Lemma main_storage_flow :
  main c w s
  = if String.eqb (bucket_name s) "" || String.eqb (blob_name s) ""
    then (shown_by_storage_inputs s, Stopped)
    else match write_read (gcs w) (bucket_name s) (blob_name s) (projectid c)
         with
         | Ok df => (shown_by_storage_inputs s
                       ++ [st_write [VStr "Data Preview:"];
                           st_dataframe (VFrame (head df))],
                     Done tt)
         | Err e => (shown_by_storage_inputs s, Raised e)
         end.
Proof.
  unfold main, shown_by_storage_inputs. run_script. rewrite Htask.
  change (String.prefix "Load from local drive" "Load from Google Storage")
    with false.
  change (String.eqb "Load from Google Storage" "Load from Google Storage")
    with true.
  cbv iota. unfold storage_flow. run_script.
  destruct (String.eqb (bucket_name s) "" || String.eqb (blob_name s) "");
    [reflexivity|].
  run_script.
  destruct (write_read (gcs w) (bucket_name s) (blob_name s) (projectid c));
    reflexivity.
Qed.

End StorageFacts.

Section YahooFacts.

Variable c : config.
Variable w : world.
Variable s : session.

Hypothesis Htask : task s = "Yahoo Finance".

Lemma main_yahoo_flow :
  main c w s
  = if String.eqb (stock_symbol s) ""
    then (trace setup ++ trace (get_tasks s)
            ++ [st_text_input "Enter a stock symbol (e.g., MSFT)"],
          Stopped)
    else if String.eqb (yahoo_prompt s) ""
    then (shown_before_yahoo_chat s, Stopped)
    else St.bind
           (shown_before_yahoo_chat s ++ [st_write [VStr "Response"]],
            Done tt)
           (fun _ =>
              r <- sdf_chat w (yahoo_positional (stock_symbol s))
                            yahoo_keywords (yahoo_prompt s) ;;
              emit st_divider ;;
              emit (st_code (last_code_executed r))).
Proof.
  unfold main, shown_before_yahoo_chat.
  cbn -[String.prefix String.eqb yahoo_flow sdf_chat yahoo_positional
        yahoo_keywords].
  rewrite Htask.
  change (String.prefix "Load from local drive" "Yahoo Finance") with false.
  change (String.eqb "Yahoo Finance" "Load from Google Storage") with false.
  change (String.eqb "Yahoo Finance" "Yahoo Finance") with true.
  cbv iota. unfold yahoo_flow.
  cbn -[String.eqb sdf_chat yahoo_positional yahoo_keywords].
  destruct (String.eqb (stock_symbol s) ""); [reflexivity|].
  cbn -[String.eqb sdf_chat yahoo_positional yahoo_keywords].
  destruct (String.eqb (yahoo_prompt s) ""); [reflexivity|].
  cbn -[String.eqb sdf_chat yahoo_positional yahoo_keywords].
  fold (yahoo_positional (stock_symbol s)). fold yahoo_keywords.
  destruct (sdf_chat w (yahoo_positional (stock_symbol s)) yahoo_keywords
              (yahoo_prompt s)) as [t [r| |e]]; reflexivity.
Qed.

Lemma yahoo_chat_fails (e : exn) :
  engine w (yahoo_positional (stock_symbol s)) yahoo_keywords (yahoo_prompt s)
  = chat_fails e ->
  sdf_chat w (yahoo_positional (stock_symbol s)) yahoo_keywords
           (yahoo_prompt s)
  = ([chat (yahoo_positional (stock_symbol s)) yahoo_keywords
           (yahoo_prompt s)],
     Done (caught w e)).
Proof. intros He. unfold sdf_chat. rewrite He. reflexivity. Qed.

Lemma yahoo_chat_returns (r : reply) :
  engine w (yahoo_positional (stock_symbol s)) yahoo_keywords (yahoo_prompt s)
  = chat_returns r ->
  Forall (fun res => exists ty v, OutputParser.well_formed res ty v)
         (rendered r) ->
  sdf_chat w (yahoo_positional (stock_symbol s)) yahoo_keywords
           (yahoo_prompt s)
  = (chat (yahoo_positional (stock_symbol s)) yahoo_keywords (yahoo_prompt s)
       :: flat_map view_of (rendered r),
     Done r).
Proof.
  intros He Hall. unfold sdf_chat, render_and_return. rewrite He.
  change (configured yahoo_keywords "response_parser")
    with (Some (VClass "OutputParser")).
  cbv iota beta. rewrite (render_all_views _ Hall).
  cbn [St.bind emit ret try_except app]. now rewrite !app_nil_r.
Qed.

End YahooFacts.

Section FlowFacts.

Variable c : config.
Variable w : world.
Variable s : session.

(** X10.  The upload flow waits for its inputs.  Without a file the run
    is halted right after the uploader, before anything is read or
    estimated.  With a file read and a description, but an empty prompt,
    the run is halted after the engine is built: nothing is sent to
    it. *)
Theorem upload_halts_on_missing_input :
  String.prefix "Load from local drive" (task s) = true ->
  (dataset s = None ->
   main c w s
   = (trace setup ++ trace (get_tasks s)
        ++ [st_file_uploader "Upload your CSV or XLSX file" ["csv"; "xlsx"]],
      Stopped)) /\
  (forall up df,
      dataset s = Some up ->
      read_upload up = Ok df ->
      addon_of s <> "" ->
      prompt s = "" ->
      main c w s
      = (shown_before_dispatch w s df
           ++ shown_by_selection c s df (addon_of s),
         Stopped) /\
      existsb is_chat (trace (main c w s)) = false).
Proof.
  intros Htask. split.
  - intros Hup. now apply main_upload_missing.
  - intros up df Hup Hread Haddon Hprompt.
    apply String.eqb_neq in Haddon. apply String.eqb_eq in Hprompt.
    rewrite (main_upload_flow c w s up df) by assumption.
    rewrite Haddon, dispatch_no_prompt by assumption.
    split; [reflexivity|]. cbn [trace fst].
    rewrite existsb_app, shown_before_dispatch_none; [reflexivity|].
    intros ev Hev. rewrite Hev. now rewrite !orb_true_r.
Qed.

(** X11.  An upload that cannot be read.  When the reader raises [e],
    the run shows the message "Error reading file: " followed by the
    text of [e] and is halted: no estimate, no preview, no engine. *)
Theorem upload_unreadable_reported (up : upload) (e : exn) :
  String.prefix "Load from local drive" (task s) = true ->
  dataset s = Some up ->
  read_upload up = Err e ->
  main c w s
  = (trace setup ++ trace (get_tasks s)
       ++ [st_file_uploader "Upload your CSV or XLSX file" ["csv"; "xlsx"];
           st_error ("Error reading file: " ++ exn_str e)],
     Stopped) /\
  existsb (fun ev => is_cost_report ev || is_engine ev || is_chat ev)
          (trace (main c w s)) = false.
Proof.
  intros Htask Hup Hread.
  rewrite (main_upload_unreadable c w s Htask up e) by assumption.
  split; reflexivity.
Qed.

(** X12.  The two upload tasks run the same script: which of the two
    options is selected, and indeed any task whose name starts with
    "Load from local drive", makes no difference to the run. *)
Theorem upload_tasks_alike (t1 t2 : string) :
  String.prefix "Load from local drive" t1 = true ->
  String.prefix "Load from local drive" t2 = true ->
  main c w (with_task s t1) = main c w (with_task s t2).
Proof.
  intros H1 H2. unfold main.
  cbn -[String.prefix String.eqb local_flow].
  rewrite H1, H2. reflexivity.
Qed.

(** X13.  In the upload flow, for a file that was read, the engine is
    built exactly when the description that reaches line 90 is not
    empty, and it is then built with that description as field
    descriptions: the text the user entered under "Yes", unchanged. *)
Theorem engine_built_iff_description (up : upload) (df : DataFrame) :
  String.prefix "Load from local drive" (task s) = true ->
  dataset s = Some up ->
  read_upload up = Ok df ->
  existsb is_engine (trace (main c w s)) = negb (String.eqb (addon_of s) "") /\
  (addon_of s <> "" ->
   In (SmartDataframe
         [VPandasConnector [("original_df", df)] (addon_of s);
          VDict [("enable_cache", VBool false)]]
         (engine_keywords (choose_llm c (llm_choice s))))
      (trace (main c w s))) /\
  (col_desc s = "Yes" -> addon_of s = addon_text s).
Proof.
  intros Htask Hup Hread.
  rewrite (main_upload_flow c w s up df) by assumption.
  assert (Hquiet : existsb is_engine (shown_before_dispatch w s df) = false).
  { apply shown_before_dispatch_none. intros ev Hev. rewrite Hev.
    now rewrite !orb_true_r. }
  destruct (dispatch_begins c w s df (addon_of s)) as [rest Hrest].
  split; [|split].
  - destruct (String.eqb (addon_of s) ""); cbn [trace fst negb].
    + exact Hquiet.
    + rewrite existsb_app, Hquiet, Hrest. reflexivity.
  - intros Haddon. apply String.eqb_neq in Haddon. rewrite Haddon.
    cbn [trace fst]. rewrite Hrest. apply in_or_app. right.
    simpl. auto.
  - intros Hyes. unfold addon_of. now rewrite Hyes.
Qed.

(** X15.  A blob that loads.  In the storage flow with both names
    entered, when [write_read] gives a table the run shows the preview
    of its first rows, at most five, and ends normally; no cost estimate
    is made for a table loaded from storage. *)
Theorem storage_run_previews (df : DataFrame) :
  task s = "Load from Google Storage" ->
  bucket_name s <> "" ->
  blob_name s <> "" ->
  write_read (gcs w) (bucket_name s) (blob_name s) (projectid c) = Ok df ->
  main c w s
  = (shown_by_storage_inputs s
       ++ [st_write [VStr "Data Preview:"];
           st_dataframe
             (VFrame {| columns := columns df; rows := firstn 5 (rows df) |})],
     Done tt) /\
  existsb is_cost_report (trace (main c w s)) = false.
Proof.
  intros Htask Hbucket Hblob Hload.
  apply String.eqb_neq in Hbucket, Hblob.
  rewrite (main_storage_flow c w s Htask), Hbucket, Hblob, Hload.
  split; reflexivity.
Qed.

(** X16.  The storage flow asks for both names before it looks at
    either: when the bucket name or the object name is empty the run is
    halted after the two inputs, and the storage is not consulted, so
    the run is the same whatever the storage holds. *)
Theorem storage_halts_without_names (w' : world) :
  task s = "Load from Google Storage" ->
  bucket_name s = "" \/ blob_name s = "" ->
  main c w s = (shown_by_storage_inputs s, Stopped) /\
  main c w' s = main c w s.
Proof.
  intros Htask Hempty.
  assert (E : String.eqb (bucket_name s) "" || String.eqb (blob_name s) ""
              = true).
  { destruct Hempty as [-> | ->]; [reflexivity|apply orb_true_r]. }
  rewrite (main_storage_flow c w s Htask), (main_storage_flow c w' s Htask), E.
  split; reflexivity.
Qed.

(** X17.  The finance flow asks for the symbol first.  Without a symbol
    the run is halted before any engine is built; with a symbol the
    engine is built next, on the connector of that symbol and with the
    response parser as its only configuration, before the prompt is
    asked for. *)
Theorem yahoo_engine_after_symbol :
  task s = "Yahoo Finance" ->
  (stock_symbol s = "" ->
   main c w s
   = (trace setup ++ trace (get_tasks s)
        ++ [st_text_input "Enter a stock symbol (e.g., MSFT)"],
      Stopped)) /\
  (stock_symbol s <> "" ->
   exists rest,
     trace (main c w s)
     = trace setup ++ trace (get_tasks s)
         ++ [st_text_input "Enter a stock symbol (e.g., MSFT)";
             SmartDataframe
               [VYahooFinanceConnector (stock_symbol s)]
               [("config",
                 VDict [("response_parser", VClass "OutputParser")])]]
         ++ rest).
Proof.
  intros Htask. rewrite (main_yahoo_flow c w s Htask). split.
  - intros Hsym. apply String.eqb_eq in Hsym. now rewrite Hsym.
  - intros Hsym. apply String.eqb_neq in Hsym. rewrite Hsym.
    destruct (String.eqb (yahoo_prompt s) "").
    + exists [st_text_input "Enter your prompt"]. reflexivity.
    + destruct (sdf_chat_returns w (yahoo_positional (stock_symbol s))
                  yahoo_keywords (yahoo_prompt s)) as [t [r [E _]]].
      rewrite E. cbn [St.bind emit trace fst].
      unfold shown_before_yahoo_chat. rewrite <- !app_assoc.
      cbn [app]. eexists. reflexivity.
Qed.

(** X18.  A complete run of the finance flow.  With a symbol and a
    prompt, when [chat] returns and each result it renders carries a tag
    and a payload, the run ends normally and shows the heading, the
    views of the results and the code last executed.  The engine is
    configured with the response parser only, no backend being chosen,
    and what [chat] returns is not written. *)
Theorem yahoo_run_complete (r : reply) :
  task s = "Yahoo Finance" ->
  stock_symbol s <> "" ->
  yahoo_prompt s <> "" ->
  engine w (yahoo_positional (stock_symbol s)) yahoo_keywords (yahoo_prompt s)
  = chat_returns r ->
  Forall (fun res => exists ty v, OutputParser.well_formed res ty v)
         (rendered r) ->
  main c w s
  = (shown_before_yahoo_chat s
       ++ [st_write [VStr "Response"];
           chat (yahoo_positional (stock_symbol s)) yahoo_keywords
                (yahoo_prompt s)]
       ++ flat_map view_of (rendered r)
       ++ [st_divider; st_code (last_code_executed r)],
     Done tt) /\
  configured yahoo_keywords "response_parser" = Some (VClass "OutputParser") /\
  configured yahoo_keywords "llm" = None.
Proof.
  intros Htask Hsym Hprompt Hengine Hall.
  apply String.eqb_neq in Hsym, Hprompt.
  rewrite (main_yahoo_flow c w s Htask), Hsym, Hprompt.
  rewrite (yahoo_chat_returns w s r Hengine Hall).
  split; [|split; reflexivity].
  cbn [St.bind emit]. rewrite <- !app_assoc. reflexivity.
Qed.

(** C3, at the inputs where the code departs from it.  In the finance
    flow, when the engine meets an exception during [chat], [chat]
    returns the text of the error and line 126 keeps it in a variable
    that is never shown: the run ends normally, the heading is the only
    thing displayed, and no [st.error] call is made. *)
Theorem chat_failure_unreported (e : exn) :
  task s = "Yahoo Finance" ->
  stock_symbol s <> "" ->
  yahoo_prompt s <> "" ->
  engine w (yahoo_positional (stock_symbol s)) yahoo_keywords (yahoo_prompt s)
  = chat_fails e ->
  main c w s
  = (shown_before_yahoo_chat s
       ++ [st_write [VStr "Response"];
           chat (yahoo_positional (stock_symbol s)) yahoo_keywords
                (yahoo_prompt s);
           st_divider;
           st_code (last_code_executed (caught w e))],
     Done tt) /\
  filter is_display (trace (main c w s)) = [st_write [VStr "Response"]] /\
  existsb is_error (trace (main c w s)) = false.
Proof.
  intros Htask Hsym Hprompt Hengine.
  apply String.eqb_neq in Hsym, Hprompt.
  rewrite (main_yahoo_flow c w s Htask), Hsym, Hprompt.
  rewrite (yahoo_chat_fails w s e Hengine).
  cbn [St.bind emit]. rewrite <- !app_assoc.
  split; [reflexivity|]. split; reflexivity.
Qed.

End FlowFacts.

(* ================================================================= *)
(** ** Further runs on the sample inputs *)

Lemma upload_halts_on_missing_input_runs :
  main Samples.env Samples.answering (MoreSamples.submit None "How many?")
  = (trace setup
       ++ trace (get_tasks (MoreSamples.submit None "How many?"))
       ++ [st_file_uploader "Upload your CSV or XLSX file" ["csv"; "xlsx"]],
     Stopped) /\
  ending (main Samples.env Samples.answering
               (MoreSamples.submit (Some Samples.people_upload) ""))
  = Stopped.
Proof.
  split.
  - apply (upload_halts_on_missing_input Samples.env Samples.answering
             (MoreSamples.submit None "How many?")); reflexivity.
  - assert (H := proj2 (upload_halts_on_missing_input
                          Samples.env Samples.answering
                          (MoreSamples.submit (Some Samples.people_upload) "")
                          eq_refl)
                       Samples.people_upload Samples.people_frame
                       eq_refl eq_refl).
    destruct H as [H _]; [vm_compute; discriminate|reflexivity|].
    now rewrite H.
Defined.

Lemma upload_unreadable_reported_workbook :
  main Samples.env Samples.answering
       (MoreSamples.submit (Some MoreSamples.workbook) "How many?")
  = (trace setup
       ++ trace (get_tasks
                   (MoreSamples.submit (Some MoreSamples.workbook) "How many?"))
       ++ [st_file_uploader "Upload your CSV or XLSX file" ["csv"; "xlsx"];
           st_error "Error reading file: File is not a zip file"],
     Stopped) /\
  existsb (fun ev => is_cost_report ev || is_engine ev || is_chat ev)
          (trace (main Samples.env Samples.answering
                       (MoreSamples.submit (Some MoreSamples.workbook)
                                           "How many?"))) = false.
Proof.
  apply (upload_unreadable_reported Samples.env Samples.answering
           (MoreSamples.submit (Some MoreSamples.workbook) "How many?")
           MoreSamples.workbook
           (ExternalError "ValueError" "File is not a zip file"));
    reflexivity.
Defined.

Lemma upload_tasks_alike_options :
  main Samples.env Samples.answering
       (with_task (Samples.ask "No" "" "OpenAI") "Load from local drive, <200MB")
  = main Samples.env Samples.answering
         (with_task (Samples.ask "No" "" "OpenAI")
                    "Load from local drive, 200MB+").
Proof.
  apply upload_tasks_alike; reflexivity.
Defined.

Lemma engine_built_iff_description_typed :
  In (SmartDataframe
        [VPandasConnector [("original_df", Samples.people_frame)]
                          "'id': 'unique id'";
         VDict [("enable_cache", VBool false)]]
        (engine_keywords (OpenAI (Some "sk-test"))))
     (trace (main Samples.env Samples.answering
                  (MoreSamples.submit (Some Samples.people_upload)
                                      "How many?"))).
Proof.
  apply (engine_built_iff_description Samples.env Samples.answering
           (MoreSamples.submit (Some Samples.people_upload) "How many?")
           Samples.people_upload Samples.people_frame);
    try reflexivity.
  vm_compute. discriminate.
Defined.

Lemma storage_run_previews_people :
  main Samples.env Samples.answering (Samples.fetch "datasets" "people.csv")
  = (shown_by_storage_inputs (Samples.fetch "datasets" "people.csv")
       ++ [st_write [VStr "Data Preview:"];
           st_dataframe (VFrame Samples.people_frame)],
     Done tt) /\
  existsb is_cost_report
          (trace (main Samples.env Samples.answering
                       (Samples.fetch "datasets" "people.csv"))) = false.
Proof.
  apply (storage_run_previews Samples.env Samples.answering
           (Samples.fetch "datasets" "people.csv") Samples.people_frame).
  - reflexivity.
  - vm_compute. discriminate.
  - vm_compute. discriminate.
  - reflexivity.
Defined.

Lemma storage_halts_without_names_blank :
  main Samples.env Samples.answering (Samples.fetch "" "people.csv")
  = (shown_by_storage_inputs (Samples.fetch "" "people.csv"), Stopped) /\
  main Samples.env Samples.failing (Samples.fetch "" "people.csv")
  = main Samples.env Samples.answering (Samples.fetch "" "people.csv").
Proof.
  apply (storage_halts_without_names Samples.env Samples.answering
           (Samples.fetch "" "people.csv") Samples.failing).
  - reflexivity.
  - left. reflexivity.
Defined.

Lemma yahoo_engine_after_symbol_runs :
  main Samples.env Samples.answering (MoreSamples.quote "" "")
  = (trace setup ++ trace (get_tasks (MoreSamples.quote "" ""))
       ++ [st_text_input "Enter a stock symbol (e.g., MSFT)"],
     Stopped) /\
  exists rest,
    trace (main Samples.env Samples.answering (MoreSamples.quote "MSFT" ""))
    = trace setup ++ trace (get_tasks (MoreSamples.quote "MSFT" ""))
        ++ [st_text_input "Enter a stock symbol (e.g., MSFT)";
            SmartDataframe
              [VYahooFinanceConnector "MSFT"]
              [("config",
                VDict [("response_parser", VClass "OutputParser")])]]
        ++ rest.
Proof.
  split.
  - apply (yahoo_engine_after_symbol Samples.env Samples.answering
             (MoreSamples.quote "" "")); reflexivity.
  - apply (yahoo_engine_after_symbol Samples.env Samples.answering
             (MoreSamples.quote "MSFT" "")).
    + reflexivity.
    + vm_compute. discriminate.
Defined.

Lemma yahoo_run_complete_answer :
  main Samples.env Samples.answering
       (MoreSamples.quote "MSFT" "What was the last close?")
  = (shown_before_yahoo_chat
       (MoreSamples.quote "MSFT" "What was the last close?")
       ++ [st_write [VStr "Response"];
           chat (yahoo_positional "MSFT") yahoo_keywords
                "What was the last close?"]
       ++ [st_write [VStr "42"]]
       ++ [st_divider;
           st_code (VStr "result = {'type': 'string', 'value': '42'}")],
     Done tt) /\
  configured yahoo_keywords "response_parser" = Some (VClass "OutputParser") /\
  configured yahoo_keywords "llm" = None.
Proof.
  apply (yahoo_run_complete Samples.env Samples.answering
           (MoreSamples.quote "MSFT" "What was the last close?")
           Samples.answer).
  - reflexivity.
  - vm_compute. discriminate.
  - vm_compute. discriminate.
  - reflexivity.
  - repeat constructor. exists (VStr "string"), (VStr "42").
    split; reflexivity.
Defined.

(** The default backend refuses the key it was given: the user is not
    told. *)
Lemma chat_failure_unreported_bad_key :
  main Samples.env MoreSamples.refusing
       (MoreSamples.quote "MSFT" "What was the last close?")
  = (shown_before_yahoo_chat
       (MoreSamples.quote "MSFT" "What was the last close?")
       ++ [st_write [VStr "Response"];
           chat (yahoo_positional "MSFT") yahoo_keywords
                "What was the last close?";
           st_divider;
           st_code VNone],
     Done tt) /\
  filter is_display
         (trace (main Samples.env MoreSamples.refusing
                      (MoreSamples.quote "MSFT" "What was the last close?")))
  = [st_write [VStr "Response"]] /\
  existsb is_error
          (trace (main Samples.env MoreSamples.refusing
                       (MoreSamples.quote "MSFT" "What was the last close?")))
  = false.
Proof.
  apply (chat_failure_unreported Samples.env MoreSamples.refusing
           (MoreSamples.quote "MSFT" "What was the last close?")
           MoreSamples.invalid_key).
  - reflexivity.
  - vm_compute. discriminate.
  - vm_compute. discriminate.
  - reflexivity.
Defined.
